(** * Link discovery of the standard crawl engine

    A shallow embedding of [pkg/engine/standard]'s response parsers
    (the registry [responseParsers], [parseResponse], the header, tag,
    form and JS-regex parsers) and of [makeRequest], with the properties
    the specification states about them.

    Conventions.
    - A parser in the source is a procedure [parser(resp, callback)] that
      calls [callback] inline, zero or more times.  Here a parser returns
      the list of the requests it passed to [callback], in call order.
    - Go packages become modules of the same name ([strings], [url],
      [multipart], [html], [goquery], [http], [types]).
    - [int] is a 64-bit integer: a [Z] together with [wrapInt].
    - The functions of packages [navigation] and [utils] the parsers call
      ([NewNavigationRequestURL], [AbsoluteURL], the form-fill and regex
      helpers) are not embedded: they are fields of the classes
      [Navigation] and [Utils], and every statement holds for all of them. *)

From Stdlib Require Import ZArith Ascii List Bool Lia.
From Stdlib Require String.
From stdpp Require Import base list strings gmap fin_maps.

Local Open Scope Z_scope.

(* ------------------------------------------------------------------ *)
(** ** Bytes used by the encoders *)

Definition CR : ascii := ascii_of_nat 13.
Definition LF : ascii := ascii_of_nat 10.
Definition DQUOTE : ascii := ascii_of_nat 34.
Definition BACKSLASH : ascii := ascii_of_nat 92.
Definition CRLF : string := String CR (String LF EmptyString).

(** [s] is the empty Go string. *)
Definition isEmpty (s : string) : bool :=
  match s with EmptyString => true | String _ _ => false end.

(* ------------------------------------------------------------------ *)
(** ** Package [strings] *)

Module strings.

(** [strings.ToUpper] on a string of ASCII bytes: the letters [a]-[z] go to
    [A]-[Z], every other byte stays.  (On other strings Go maps Unicode
    letters; see [ToUpper] in class [Runtime].) *)
Definition upperByte (c : ascii) : ascii :=
  let n := N_of_ascii c in
  if ((97 <=? n) && (n <=? 122))%N then ascii_of_N (n - 32) else c.

Fixpoint ToUpperASCII (s : string) : string :=
  match s with
  | EmptyString => EmptyString
  | String c s' => String (upperByte c) (ToUpperASCII s')
  end.

Fixpoint isASCII (s : string) : bool :=
  match s with
  | EmptyString => true
  | String c s' => (N_of_ascii c <? 128)%N && isASCII s'
  end.

Definition HasPrefix (s prefix : string) : bool := String.prefix prefix s.

Fixpoint rev (s acc : string) : string :=
  match s with
  | EmptyString => acc
  | String c s' => rev s' (String c acc)
  end.

Definition HasSuffix (s suffix : string) : bool :=
  String.prefix (rev suffix EmptyString) (rev s EmptyString).

Fixpoint Contains (s substr : string) : bool :=
  String.prefix substr s ||
  match s with
  | EmptyString => false
  | String _ s' => Contains s' substr
  end.

Fixpoint ContainsByte (s : string) (c : ascii) : bool :=
  match s with
  | EmptyString => false
  | String d s' => Ascii.eqb c d || ContainsByte s' c
  end.

(** [strings.ContainsAny]: some byte of [chars] occurs in [s]. *)
Fixpoint ContainsAny (s chars : string) : bool :=
  match chars with
  | EmptyString => false
  | String c chars' => ContainsByte s c || ContainsAny s chars'
  end.

End strings.

(* ------------------------------------------------------------------ *)
(** ** Package [net/url] *)

Module url.

Record URL := { Scheme : string; Host : string; Path : string; RawQuery : string }.

(** [url.Values] is [map[string][]string]. *)
Abbreviation Values := (gmap string (list string)).

(** [v.Set(key, value)] replaces whatever the key held. *)
Definition Set_ (v : Values) (key value : string) : Values := <[key := [value]]> v.

Definition upperhex (n : N) : ascii :=
  if (n <? 10)%N then ascii_of_N (48 + n) else ascii_of_N (55 + n).

(** [shouldEscape(c, encodeQueryComponent)]: only the unreserved bytes
    (letters, digits, [-], [_], [.], [~]) are left as they are. *)
Definition shouldEscape (c : ascii) : bool :=
  let n := N_of_ascii c in
  negb (((97 <=? n) && (n <=? 122)) || ((65 <=? n) && (n <=? 90)) ||
        ((48 <=? n) && (n <=? 57)) ||
        (n =? 45) || (n =? 95) || (n =? 46) || (n =? 126))%N.

Fixpoint QueryEscape (s : string) : string :=
  match s with
  | EmptyString => EmptyString
  | String c s' =>
      let n := N_of_ascii c in
      if (n =? 32)%N then String "+" (QueryEscape s')
      else if shouldEscape c
           then String "%" (String (upperhex (n / 16)) (String (upperhex (n mod 16)) (QueryEscape s')))
           else String c (QueryEscape s')
  end.

(** [slices.Sort(keys)]: insertion in byte-wise lexicographic order. *)
Fixpoint insertKey (k : string) (ks : list string) : list string :=
  match ks with
  | [] => [k]
  | k' :: ks' => if String.leb k k' then k :: ks else k' :: insertKey k ks'
  end.

Definition sortKeys (ks : list string) : list string := foldr insertKey [] ks.

(** The inner loop of [Encode] over the values of one key: [buf] is the
    builder so far. *)
Definition encodeKey (keyEscaped : string) (vs : list string) (buf : string) : string :=
  foldl (fun buf v =>
           (if isEmpty buf then buf else buf +:+ "&") +:+ keyEscaped +:+ "=" +:+ QueryEscape v)
        buf vs.

(** [v.Encode()]: ["k1=v1&k2=v2"], keys sorted. *)
Definition Encode (v : Values) : string :=
  foldl (fun buf k => encodeKey (QueryEscape k) (default [] (v !! k)) buf)
        EmptyString (sortKeys (map fst (map_to_list v))).

End url.

(* ------------------------------------------------------------------ *)
(** ** Package [mime/multipart]: the writer over a [strings.Builder] *)

Module multipart.

(** The writer together with the builder it writes to.  Writes to a
    [strings.Builder] cannot fail, so [WriteField] and [Close] carry no
    error. *)
Record Writer := { boundary : string; sb : string; lastpart : bool }.

(** [NewWriter(&sb)]; the boundary is the one [randomBoundary] drew. *)
Definition NewWriter (randomBoundary : string) : Writer :=
  {| boundary := randomBoundary; sb := EmptyString; lastpart := false |}.

(** [escapeQuotes], the replacer applied to the field name: a backslash
    before every backslash and double quote, [%0D] for a carriage return and
    [%0A] for a line feed. *)
Fixpoint escapeQuotes (s : string) : string :=
  match s with
  | EmptyString => EmptyString
  | String c s' =>
      if Ascii.eqb c BACKSLASH || Ascii.eqb c DQUOTE
      then String BACKSLASH (String c (escapeQuotes s'))
      else if Ascii.eqb c CR then "%0D" +:+ escapeQuotes s'
      else if Ascii.eqb c LF then "%0A" +:+ escapeQuotes s'
      else String c (escapeQuotes s')
  end.

(** [CreateFormField] then [Write]: the delimiter line, the one
    [Content-Disposition] header, an empty line, the value. *)
Definition WriteField (w : Writer) (fieldname value : string) : Writer :=
  let delimiter :=
    if lastpart w then CRLF +:+ "--" +:+ boundary w +:+ CRLF
    else "--" +:+ boundary w +:+ CRLF in
  let header :=
    "Content-Disposition: form-data; name=" +:+ String DQUOTE (escapeQuotes fieldname)
      +:+ String DQUOTE CRLF in
  {| boundary := boundary w;
     sb := sb w +:+ delimiter +:+ header +:+ CRLF +:+ value;
     lastpart := true |}.

(** [Close]: the closing delimiter line, always. *)
Definition Close (w : Writer) : Writer :=
  {| boundary := boundary w;
     sb := sb w +:+ CRLF +:+ "--" +:+ boundary w +:+ "--" +:+ CRLF;
     lastpart := false |}.

(** The bytes that force the boundary to be quoted: RFC 2045 tspecials
    and the space. *)
Definition tspecials : string :=
  "()<>@,;:" +:+ String BACKSLASH (String DQUOTE "/[]?= ").

Definition FormDataContentType (w : Writer) : string :=
  let b := boundary w in
  let b := if strings.ContainsAny b tspecials
           then String DQUOTE b +:+ String DQUOTE EmptyString else b in
  "multipart/form-data; boundary=" +:+ b.

End multipart.

(* ------------------------------------------------------------------ *)
(** ** Packages [html] and [goquery]: the parsed document *)

Module html.

Record Attribute := { Key : string; Val : string }.

(** A node of the parsed tree with its children in document order.
    [OtherNode] stands for comments and doctypes. *)
#[warnings="-register-all"]
Inductive Node :=
| ElementNode (Data : string) (Attr : list Attribute) (children : list Node)
| TextNode (Data : string)
| OtherNode.

Definition Attr (n : Node) : list Attribute :=
  match n with ElementNode _ a _ => a | _ => [] end.

Definition children (n : Node) : list Node :=
  match n with ElementNode _ _ cs => cs | _ => [] end.

End html.

Module goquery.
Import html.

(** The selectors the parsers use: [tag], [tag[attr]], [tag[attr='val']]. *)
Inductive Selector :=
| Tag (tag : string)
| TagAttr (tag attr : string)
| TagAttrEq (tag attr val : string).

Definition selTag (s : Selector) : string :=
  match s with Tag t | TagAttr t _ | TagAttrEq t _ _ => t end.

(** The value of the first attribute named [attrName]. *)
Fixpoint getAttributeValue (attrName : string) (attrs : list Attribute) : option string :=
  match attrs with
  | [] => None
  | a :: attrs' =>
      if String.eqb (Key a) attrName then Some (Val a) else getAttributeValue attrName attrs'
  end.

Definition attrMatches (s : Selector) (attrs : list Attribute) : bool :=
  match s with
  | Tag _ => true
  | TagAttr _ k => existsb (fun a => String.eqb (Key a) k) attrs
  | TagAttrEq _ k v => existsb (fun a => String.eqb (Key a) k && String.eqb (Val a) v) attrs
  end.

Definition matches (s : Selector) (n : Node) : bool :=
  match n with
  | ElementNode tag attrs _ => String.eqb tag (selTag s) && attrMatches s attrs
  | _ => false
  end.

(** [MatchAll]: the node itself when it matches, then its descendants,
    in document order. *)
Fixpoint MatchAll (s : Selector) (n : Node) : list Node :=
  (if matches s n then [n] else []) ++
  match n with
  | ElementNode _ _ cs => flat_map (MatchAll s) cs
  | _ => []
  end.

(** A selection is the list of its nodes. *)
Abbreviation Selection := (list Node).

(** [sel.Find(selector)]: the matching descendants of the selection's
    nodes.  Both uses in the parsers start from one node (the document
    root, or the item of an [Each]). *)
Definition Find (sel : Selection) (s : Selector) : Selection :=
  flat_map (fun n => flat_map (MatchAll s) (children n)) sel.

(** [sel.Attr(name)] reads the first node of the selection. *)
Definition Attr (sel : Selection) (attrName : string) : option string :=
  match sel with
  | [] => None
  | n :: _ => getAttributeValue attrName (html.Attr n)
  end.

Fixpoint getNodeText (n : Node) : string :=
  match n with
  | TextNode d => d
  | ElementNode _ _ cs => foldr (fun c acc => getNodeText c +:+ acc) EmptyString cs
  | OtherNode => EmptyString
  end.

Definition Text (sel : Selection) : string :=
  foldr (fun n acc => getNodeText n +:+ acc) EmptyString sel.

(** [sel.Each(f)]: [f] on every node, as a selection of its own, with its
    index; the requests [f] emits, in order. *)
Fixpoint EachFrom {A} (i : nat) (sel : Selection) (f : nat -> Selection -> list A) : list A :=
  match sel with
  | [] => []
  | n :: sel' => f i [n] ++ EachFrom (S i) sel' f
  end.

Definition Each {A} (sel : Selection) (f : nat -> Selection -> list A) : list A :=
  EachFrom 0 sel f.

End goquery.

(* ------------------------------------------------------------------ *)
(** ** Packages [net/http] and [types] *)

Module http.

(** [http.Header], keyed by canonical header name. *)
Abbreviation Header := (gmap string (list string)).

(** [h.Get(key)]: the first value under [key], or the empty string.  The
    parsers pass keys that are already in canonical form. *)
Definition Get (h : Header) (key : string) : string :=
  match h !! key with
  | Some (v :: _) => v
  | _ => EmptyString
  end.

Module Request.
Record t := { URL : url.URL }.
End Request.

Module Response.
Record t := { StatusCode : Z; Header : http.Header; Request : Request.t }.
End Response.

End http.

Module types.

Module Options.
Record t := { ScrapeJSResponses : bool; BodyReadSize : Z }.
End Options.

Module CrawlerOptions.
Record t := { Options : Options.t }.
End CrawlerOptions.

End types.

(* ------------------------------------------------------------------ *)
(** ** Package [navigation]: the request and response values *)

(** Go's [int] on a 64-bit target: [x] reduced to the signed 64-bit range. *)
Definition wrapInt (x : Z) : Z := (x + 2 ^ 63) mod 2 ^ 64 - 2 ^ 63.

Module NavigationRequest.

(** [Headers] is [map[string]string]; the nil map is the empty map. *)
Record t := {
  Method : string;
  URL : string;
  Body : string;
  Depth : Z;
  Headers : gmap string string;
  Source : string
}.

End NavigationRequest.

Module NavigationResponse.

(** The struct as [makeRequest] returns it: [Resp] and [Reader] are
    pointers and [Body] a slice, all nil on the early returns. *)
Record raw := {
  rawResp : option http.Response.t;
  rawDepth : Z;
  rawOptions : types.CrawlerOptions.t;
  rawReader : option html.Node;
  rawBody : option string
}.

(** The struct with [Resp] and [Reader] set: what a parser is given.
    [Reader] is the root of the parsed document.  (On a nil [Resp] or
    [Reader] a parser would stop on a nil dereference; such values are
    not parser inputs.) *)
Record t := {
  Resp : http.Response.t;
  Depth : Z;
  Options : types.CrawlerOptions.t;
  Reader : html.Node;
  Body : string
}.

Definition populated (r : raw) : option t :=
  match rawResp r, rawReader r with
  | Some resp, Some reader =>
      Some {| Resp := resp; Depth := rawDepth r; Options := rawOptions r;
              Reader := reader; Body := default EmptyString (rawBody r) |}
  | _, _ => None
  end.

End NavigationResponse.

(** What the rest of package [navigation] provides. *)
Class Navigation := {
  (** [resp.AbsoluteURL(path)]: the reference resolved against the
      response's request URL, the empty string when that fails. *)
  AbsoluteURL : NavigationResponse.t -> string -> string;
  (** [NewNavigationRequestURL(path, source, resp)]. *)
  NewNavigationRequestURL : string -> string -> NavigationResponse.t -> NavigationRequest.t
}.

(** What package [utils] provides. *)
Class Utils := {
  FormInput : Type;
  FormFillData : Type;
  DefaultFormFillData : FormFillData;
  ConvertGoquerySelectionToFormInput : goquery.Selection -> FormInput;
  FormInputFillSuggestions : list FormInput -> FormFillData -> gmap string string;
  ParseLinkTag : string -> list string;
  ParseRefreshTag : string -> string;
  ExtractRelativeEndpoints : string -> list string
}.

(** What one run takes from the Go runtime and library as given: the
    boundary [multipart.NewWriter] generates for the form with index [i], the
    order in which [range] visits the entries of that form's data map, and
    [strings.ToUpper], of which only its action on ASCII strings is used. *)
Class Runtime := {
  ToUpper : string -> string;
  ToUpper_ascii : forall s, strings.isASCII s = true -> ToUpper s = strings.ToUpperASCII s;
  randomBoundary : nat -> string;
  rangeOrder : nat -> gmap string string -> list (string * string);
  rangeOrder_perm : forall i m, rangeOrder i m ≡ₚ map_to_list m
}.

(* ------------------------------------------------------------------ *)
(** ** [makeRequest] *)

(** The answers of the transport to one call of [makeRequest]. *)
Record Transport := {
  NewRequest : string -> string -> option string;          (* http.NewRequest's error *)
  FromRequest : option string;                             (* retryablehttp.FromRequest's error *)
  Do : http.Response.t + string;                           (* c.httpclient.Do(req): a response, or an error *)
  ReadAll : Z -> string * option string;                   (* ioutil.ReadAll over the limited body *)
  NewDocumentFromReader : string -> html.Node + string     (* goquery.NewDocumentFromReader *)
}.

Module Crawler.
Record t := { options : types.CrawlerOptions.t }.
End Crawler.

(** [c.makeRequest(request)]: the response struct and the error.  The
    headers put on the outgoing request, and the deferred draining and
    closing of the response body, do not reach the result and are left
    out. *)
Definition makeRequest (c : Crawler.t) (io : Transport) (request : NavigationRequest.t)
  : NavigationResponse.raw * option string :=
  let response :=
    {| NavigationResponse.rawResp := None;
       NavigationResponse.rawDepth := wrapInt (NavigationRequest.Depth request + 1);
       NavigationResponse.rawOptions := Crawler.options c;
       NavigationResponse.rawReader := None;
       NavigationResponse.rawBody := None |} in
  match NewRequest io (NavigationRequest.Method request) (NavigationRequest.URL request) with
  | Some err => (response, Some err)
  | None =>
  match FromRequest io with
  | Some err => (response, Some err)
  | None =>
  match Do io with
  | inr err => (response, Some err)
  | inl resp =>
      if http.Response.StatusCode resp =? 404 then (response, None)
      else
        match ReadAll io (types.Options.BodyReadSize
                            (types.CrawlerOptions.Options (Crawler.options c))) with
        | (_, Some err) => (response, Some err)
        | (data, None) =>
            let response :=
              {| NavigationResponse.rawResp := Some resp;
                 NavigationResponse.rawDepth := NavigationResponse.rawDepth response;
                 NavigationResponse.rawOptions := NavigationResponse.rawOptions response;
                 NavigationResponse.rawReader := None;
                 NavigationResponse.rawBody := Some data |} in
            match NewDocumentFromReader io data with
            | inr err =>
                (response, Some ("could not make document from reader: " +:+ err))
            | inl doc =>
                ({| NavigationResponse.rawResp := Some resp;
                    NavigationResponse.rawDepth := NavigationResponse.rawDepth response;
                    NavigationResponse.rawOptions := NavigationResponse.rawOptions response;
                    NavigationResponse.rawReader := Some doc;
                    NavigationResponse.rawBody := Some data |}, None)
            end
        end
  end end end.

(* ------------------------------------------------------------------ *)
(** ** Direct descriptions used in the statements *)

(** An entry of the data map that is submitted: key and value non-empty. *)
Definition submitted (entry : string * string) : bool :=
  negb (isEmpty entry.1 || isEmpty entry.2).

(** The multipart message of a list of fields, written out directly: one
    part per field, each behind a delimiter line, then the closing
    delimiter line. *)
Definition multipartPart (b : string) (first : bool) (field : string * string) : string :=
  (if first then "--" +:+ b +:+ CRLF else CRLF +:+ "--" +:+ b +:+ CRLF)
    +:+ ("Content-Disposition: form-data; name="
           +:+ String DQUOTE (multipart.escapeQuotes field.1) +:+ String DQUOTE CRLF)
    +:+ CRLF +:+ field.2.

Fixpoint multipartParts (b : string) (first : bool) (fields : list (string * string)) : string :=
  match fields with
  | [] => EmptyString
  | field :: fields' => multipartPart b first field +:+ multipartParts b false fields'
  end.

Definition multipartMessage (b : string) (fields : list (string * string)) : string :=
  multipartParts b true fields +:+ CRLF +:+ "--" +:+ b +:+ "--" +:+ CRLF.

(** The boundary as it stands in the [Content-Type] value: quoted when it
    holds a tspecial or a space. *)
Definition boundaryParam (b : string) : string :=
  if strings.ContainsAny b multipart.tspecials
  then String DQUOTE b +:+ String DQUOTE EmptyString else b.

(** The value lists a non-multipart form's data map leaves under key [k]. *)
Definition queryValueOf (dataMap : gmap string string) (k : string) : option (list string) :=
  match dataMap !! k with
  | Some v => if submitted (k, v) then Some [v] else None
  | None => None
  end.

(** The source tags the registered parsers put on their requests. *)
Definition registeredSources : list string :=
  [ "content-location"; "link"; "location"; "refresh";
    "a"; "embed"; "frame"; "iframe"; "input"; "isindex"; "script"; "form"; "meta";
    "script-content"; "js-file" ].

(* ------------------------------------------------------------------ *)
(** ** The response parsers *)

Section Parsers.
Context `{Navigation} `{Utils} `{Runtime}.

Import goquery.

(** A parser maps the response to the requests it hands to [callback]. *)
Definition responseParserFunc : Type :=
  NavigationResponse.t -> list NavigationRequest.t.

Definition Header (resp : NavigationResponse.t) : http.Header :=
  http.Response.Header (NavigationResponse.Resp resp).

(** [resp.Reader.Find(selector)]. *)
Definition ReaderFind (resp : NavigationResponse.t) (s : Selector) : Selection :=
  Find [NavigationResponse.Reader resp] s.

(** The closure shared by the tag parsers that read one attribute:
    [v, ok := item.Attr(attr); if ok && v != "" { callback(...) }]. *)
Definition attrRequest (resp : NavigationResponse.t) (attr source : string)
           (item : Selection) : list NavigationRequest.t :=
  match Attr item attr with
  | Some v => if isEmpty v then [] else [NewNavigationRequestURL v source resp]
  | None => []
  end.

(** *** Header based parsers *)

Definition headerContentLocationParser : responseParserFunc := fun resp =>
  let header := http.Get (Header resp) "Content-Location" in
  if isEmpty header then []
  else [NewNavigationRequestURL header "content-location" resp].

Definition headerLinkParser : responseParserFunc := fun resp =>
  let header := http.Get (Header resp) "Link" in
  if isEmpty header then []
  else
    let values := ParseLinkTag header in
    map (fun value => NewNavigationRequestURL value "link" resp) values.

Definition headerLocationParser : responseParserFunc := fun resp =>
  let header := http.Get (Header resp) "Location" in
  if isEmpty header then []
  else [NewNavigationRequestURL header "location" resp].

Definition headerRefreshParser : responseParserFunc := fun resp =>
  let header := http.Get (Header resp) "Refresh" in
  if isEmpty header then []
  else
    let values := ParseRefreshTag header in
    if isEmpty values then []
    else [NewNavigationRequestURL values "refresh" resp].

(** *** Body based parsers *)

Definition bodyATagParser : responseParserFunc := fun resp =>
  Each (ReaderFind resp (Tag "a")) (fun i item =>
    attrRequest resp "href" "a" item ++ attrRequest resp "ping" "a" item).

Definition bodyEmbedTagParser : responseParserFunc := fun resp =>
  Each (ReaderFind resp (TagAttr "embed" "src")) (fun i item =>
    attrRequest resp "src" "embed" item).

Definition bodyFrameTagParser : responseParserFunc := fun resp =>
  Each (ReaderFind resp (TagAttr "frame" "src")) (fun i item =>
    attrRequest resp "src" "frame" item).

Definition bodyIframeTagParser : responseParserFunc := fun resp =>
  Each (ReaderFind resp (TagAttr "iframe" "src")) (fun i item =>
    attrRequest resp "src" "iframe" item).

Definition bodyInputSrcTagParser : responseParserFunc := fun resp =>
  Each (ReaderFind resp (TagAttrEq "input" "type" "image")) (fun i item =>
    attrRequest resp "src" "input" item).

Definition bodyIsindexActionTagParser : responseParserFunc := fun resp =>
  Each (ReaderFind resp (TagAttr "isindex" "action")) (fun i item =>
    attrRequest resp "action" "isindex" item).

Definition bodyScriptSrcTagParser : responseParserFunc := fun resp =>
  Each (ReaderFind resp (TagAttr "script" "src")) (fun i item =>
    attrRequest resp "src" "script" item).

Definition bodyButtonFormactionTagParser : responseParserFunc := fun resp =>
  Each (ReaderFind resp (TagAttr "button" "formaction")) (fun i item =>
    attrRequest resp "formaction" "button" item).

Definition bodyMetaContentTagParser : responseParserFunc := fun resp =>
  Each (ReaderFind resp (TagAttrEq "meta" "http-equiv" "refresh")) (fun i item =>
    match Attr item "content" with
    | None => []
    | Some header =>
        let values := ParseRefreshTag header in
        if isEmpty values then []
        else [NewNavigationRequestURL values "meta" resp]
    end).

(** *** The form parser *)

Definition defaultEncType : string := "application/x-www-form-urlencoded".

(** [encType]: the [enctype] attribute, the default when missing or empty. *)
Definition formEncType (item : Selection) : string :=
  match Attr item "enctype" with
  | Some encType => if isEmpty encType then defaultEncType else encType
  | None => defaultEncType
  end.

(** [method]: the [method] attribute, [GET] when missing or empty,
    upper-cased. *)
Definition formMethod (item : Selection) : string :=
  let method := default EmptyString (Attr item "method") in
  let method := if isEmpty method then "GET" else method in
  ToUpper method.

Definition isMultipartForm (item : Selection) : bool :=
  strings.HasPrefix (formEncType item) "multipart/".

(** The two writers the loop over the data map feeds.  [multipartWriter]
    is nil ([None]) unless the form is multipart; it carries the builder
    [sb] it writes to. *)
Record formWriters := {
  queryValuesWriter : url.Values;
  multipartWriter : option multipart.Writer
}.

Definition newFormWriters (i : nat) (item : Selection) : formWriters :=
  {| queryValuesWriter := ∅;
     multipartWriter :=
       if isMultipartForm item then Some (multipart.NewWriter (randomBoundary i)) else None |}.

(** [item.Find("input").Each(...)]: the form inputs, in document order. *)
Definition formInputsOf (item : Selection) : list FormInput :=
  Each (Find item (Tag "input")) (fun index item =>
    match item with
    | [] => []
    | _ :: _ => [ConvertGoquerySelectionToFormInput item]
    end).

Definition formDataMap (item : Selection) : gmap string string :=
  FormInputFillSuggestions (formInputsOf item) DefaultFormFillData.

(** One turn of [for key, value := range dataMap]. *)
Definition writeEntry (multipartForm : bool) (w : formWriters) (entry : string * string)
  : formWriters :=
  let (key, value) := entry in
  if isEmpty key || isEmpty value then w
  else if multipartForm
       then {| queryValuesWriter := queryValuesWriter w;
               multipartWriter :=
                 (fun mw => multipart.WriteField mw key value) <$> multipartWriter w |}
       else {| queryValuesWriter := url.Set_ (queryValuesWriter w) key value;
               multipartWriter := multipartWriter w |}.

(** The writers after the loop and [multipartWriter.Close()]. *)
Definition filledWriters (i : nat) (item : Selection) : formWriters :=
  let w := foldl (writeEntry (isMultipartForm item)) (newFormWriters i item)
                 (rangeOrder i (formDataMap item)) in
  {| queryValuesWriter := queryValuesWriter w;
     multipartWriter := multipart.Close <$> multipartWriter w |}.

Definition formContentType (i : nat) (item : Selection) : string :=
  match multipartWriter (filledWriters i item) with
  | Some mw => multipart.FormDataContentType mw
  | None => formEncType item
  end.

(** What [req.Body] is set to, whatever the method. *)
Definition formBody (i : nat) (item : Selection) : string :=
  match multipartWriter (filledWriters i item) with
  | Some mw => multipart.sb mw
  | None => url.Encode (queryValuesWriter (filledWriters i item))
  end.

(** The closure of [bodyFormTagParser] on the [i]-th matched form. *)
Definition formRequest (resp : NavigationResponse.t) (i : nat) (item : Selection)
  : list NavigationRequest.t :=
  match Attr item "action" with
  | None => []
  | Some href =>
      let method := formMethod item in
      let actionURL := AbsoluteURL resp href in
      if isEmpty actionURL then []
      else
        let req :=
          {| NavigationRequest.Method := method;
             NavigationRequest.URL := actionURL;
             NavigationRequest.Body := formBody i item;
             NavigationRequest.Depth := NavigationResponse.Depth resp;
             NavigationRequest.Headers := ∅;
             NavigationRequest.Source := "form" |} in
        let req :=
          if String.eqb method "GET" then
            let value := url.Encode (queryValuesWriter (filledWriters i item)) in
            {| NavigationRequest.Method := NavigationRequest.Method req;
               NavigationRequest.URL := NavigationRequest.URL req +:+ "?" +:+ value;
               NavigationRequest.Body := NavigationRequest.Body req;
               NavigationRequest.Depth := NavigationRequest.Depth req;
               NavigationRequest.Headers := NavigationRequest.Headers req;
               NavigationRequest.Source := NavigationRequest.Source req |}
          else if String.eqb method "POST" then
            {| NavigationRequest.Method := NavigationRequest.Method req;
               NavigationRequest.URL := NavigationRequest.URL req;
               NavigationRequest.Body := NavigationRequest.Body req;
               NavigationRequest.Depth := NavigationRequest.Depth req;
               NavigationRequest.Headers := {[ "Content-Type" := formContentType i item ]};
               NavigationRequest.Source := NavigationRequest.Source req |}
          else req in
        [req]
  end.

Definition bodyFormTagParser : responseParserFunc := fun resp =>
  Each (ReaderFind resp (TagAttr "form" "action")) (formRequest resp).

(** *** JS regex based parsers *)

Definition ScrapeJSResponses (resp : NavigationResponse.t) : bool :=
  types.Options.ScrapeJSResponses
    (types.CrawlerOptions.Options (NavigationResponse.Options resp)).

Definition scriptContentRegexParser : responseParserFunc := fun resp =>
  Each (ReaderFind resp (Tag "script")) (fun i item =>
    if negb (ScrapeJSResponses resp) then []
    else
      let text := Text item in
      if isEmpty text then []
      else
        let endpoints := ExtractRelativeEndpoints text in
        map (fun item => NewNavigationRequestURL item "script-content" resp) endpoints).

(** The response is a JavaScript resource, by path or by content type. *)
Definition isJSFile (resp : NavigationResponse.t) : bool :=
  let contentType := http.Get (Header resp) "Content-Type" in
  strings.HasSuffix
    (url.Path (http.Request.URL (http.Response.Request (NavigationResponse.Resp resp))))
    ".js"
  || strings.Contains contentType "/javascript".

Definition scriptJSFileRegexParser : responseParserFunc := fun resp =>
  if negb (ScrapeJSResponses resp) then []
  else if negb (isJSFile resp) then []
  else
    let endpoints := ExtractRelativeEndpoints (NavigationResponse.Body resp) in
    map (fun item => NewNavigationRequestURL item "js-file" resp) endpoints.

(** *** The registry and the pipeline *)

Definition responseParsers : list responseParserFunc :=
  [ (* Header based parsers *)
    headerContentLocationParser;
    headerLinkParser;
    headerLocationParser;
    headerRefreshParser;
    (* Body based parsers *)
    bodyATagParser;
    bodyEmbedTagParser;
    bodyFrameTagParser;
    bodyIframeTagParser;
    bodyInputSrcTagParser;
    bodyIsindexActionTagParser;
    bodyScriptSrcTagParser;
    bodyFormTagParser;
    bodyMetaContentTagParser;
    (* Optional JS relative endpoints parsers *)
    scriptContentRegexParser;
    scriptJSFileRegexParser ].

(** [for _, parser := range parsers { parser(resp, callback) }]: the
    requests handed to [callback] so far grow by what each parser emits. *)
Definition runParsers (parsers : list responseParserFunc) (resp : NavigationResponse.t)
  : list NavigationRequest.t :=
  foldl (fun emitted parser => emitted ++ parser resp) [] parsers.

Definition parseResponse (resp : NavigationResponse.t) : list NavigationRequest.t :=
  runParsers responseParsers resp.

(** The fields the form with index [i] submits, in the order [range]
    visits them. *)
Definition formFields (i : nat) (item : goquery.Selection) : list (string * string) :=
  List.filter submitted (rangeOrder i (formDataMap item)).

(** What the non-multipart loop does to the query values alone. *)
Definition setEntry (qv : url.Values) (entry : string * string) : url.Values :=
  if submitted entry then url.Set_ qv entry.1 entry.2 else qv.

End Parsers.

(* ------------------------------------------------------------------ *)
(** ** Concrete pages *)

(** Stand-ins for the functions of [navigation] and [utils], to run the
    parsers on concrete pages.  They agree with the description of those
    functions on the inputs used below: references that are absolute URLs
    without a fragment (which resolve to themselves), and inputs that carry
    a name and a value (which are submitted as they are). *)

Module exFormInput.
Record t := { inputType : string; inputName : string; inputValue : string }.
End exFormInput.

Definition exAbsoluteURL (resp : NavigationResponse.t) (path : string) : string :=
  if strings.HasPrefix path "#" then EmptyString else path.

#[global] Instance exNavigation : Navigation := {|
  AbsoluteURL := exAbsoluteURL;
  NewNavigationRequestURL path source resp :=
    {| NavigationRequest.Method := "GET";
       NavigationRequest.URL := exAbsoluteURL resp path;
       NavigationRequest.Body := EmptyString;
       NavigationRequest.Depth := NavigationResponse.Depth resp;
       NavigationRequest.Headers := ∅;
       NavigationRequest.Source := source |}
|}.

Definition exConvert (item : goquery.Selection) : exFormInput.t :=
  {| exFormInput.inputType := default EmptyString (goquery.Attr item "type");
     exFormInput.inputName := default EmptyString (goquery.Attr item "name");
     exFormInput.inputValue := default EmptyString (goquery.Attr item "value") |}.

Definition exFill (inputs : list exFormInput.t) (_ : unit) : gmap string string :=
  foldl (fun data input =>
           if isEmpty (exFormInput.inputValue input) then data
           else <[exFormInput.inputName input := exFormInput.inputValue input]> data)
        ∅ inputs.

#[global] Instance exUtils : Utils := {|
  FormInput := exFormInput.t;
  FormFillData := unit;
  DefaultFormFillData := tt;
  ConvertGoquerySelectionToFormInput := exConvert;
  FormInputFillSuggestions := exFill;
  ParseLinkTag := fun _ => [];
  ParseRefreshTag := fun _ => EmptyString;
  ExtractRelativeEndpoints := fun text => if isEmpty text then [] else [text]
|}.

(** A boundary as [randomBoundary] makes them: sixty hexadecimal digits. *)
Definition exBoundary : string :=
  "3f9a1c0e5b7d2468ace013579bdf02468ace13579bdf0a1b2c3d4e5f6071".

#[global] Instance exRuntime : Runtime := {|
  ToUpper := strings.ToUpperASCII;
  ToUpper_ascii := fun _ _ => eq_refl;
  randomBoundary := fun _ => exBoundary;
  rangeOrder := fun _ m => map_to_list m;
  rangeOrder_perm := fun _ m => Permutation_refl (map_to_list m)
|}.

Definition attr (k v : string) : html.Attribute := {| html.Key := k; html.Val := v |}.

Definition exInput (name value : string) : html.Node :=
  html.ElementNode "input" [attr "name" name; attr "value" value] [].

Definition exDocument (body : list html.Node) : html.Node :=
  html.ElementNode "html" [] [html.ElementNode "head" [] []; html.ElementNode "body" [] body].

Definition exOptions (scrapeJS : bool) : types.CrawlerOptions.t :=
  {| types.CrawlerOptions.Options :=
       {| types.Options.ScrapeJSResponses := scrapeJS;
          types.Options.BodyReadSize := 2097152 |} |}.

(** The response to a request for [http://example.com] followed by [path]. *)
Definition exResponse (path : string) (header : http.Header) (depth : Z) (scrapeJS : bool)
           (reader : html.Node) (body : string) : NavigationResponse.t :=
  {| NavigationResponse.Resp :=
       {| http.Response.StatusCode := 200;
          http.Response.Header := header;
          http.Response.Request :=
            {| http.Request.URL :=
                 {| url.Scheme := "http"; url.Host := "example.com";
                    url.Path := path; url.RawQuery := EmptyString |} |} |};
     NavigationResponse.Depth := depth;
     NavigationResponse.Options := exOptions scrapeJS;
     NavigationResponse.Reader := reader;
     NavigationResponse.Body := body |}.

Definition exPage (depth : Z) (body : list html.Node) : NavigationResponse.t :=
  exResponse "/" ∅ depth false (exDocument body) EmptyString.

(** [<form action="http://example.com/search"><input name="q" value="crawler"></form>] *)
Definition searchForm : html.Node :=
  html.ElementNode "form" [attr "action" "http://example.com/search"]
    [exInput "q" "crawler"].

(** The same form with [method="put"]. *)
Definition putForm : html.Node :=
  html.ElementNode "form" [attr "action" "http://example.com/search"; attr "method" "put"]
    [exInput "q" "crawler"].

(** [<form action="http://example.com/upload" enctype="multipart/form-data">]
    with the same input and no [method]. *)
Definition uploadForm : html.Node :=
  html.ElementNode "form"
    [attr "action" "http://example.com/upload"; attr "enctype" "multipart/form-data"]
    [exInput "q" "crawler"].

(** A multipart [post] form with an input. *)
Definition postUploadForm : html.Node :=
  html.ElementNode "form"
    [attr "action" "http://example.com/upload"; attr "method" "post";
     attr "enctype" "multipart/form-data"]
    [exInput "q" "crawler"].

(** A multipart [post] form whose input name holds a line feed and a double
    quote: [a], LF, [b], a double quote, [c]. *)
Definition lineFeedForm : html.Node :=
  html.ElementNode "form"
    [attr "action" "http://example.com/upload"; attr "method" "post";
     attr "enctype" "multipart/form-data"]
    [exInput (String "a" (String LF (String "b" (String DQUOTE "c")))) "v"].

(** A multipart [post] form with no input at all. *)
Definition emptyUploadForm : html.Node :=
  html.ElementNode "form"
    [attr "action" "http://example.com/upload"; attr "method" "post";
     attr "enctype" "multipart/form-data"]
    [].

(** [<form action="http://example.com/list?page=2"></form>] *)
Definition emptyQueryForm : html.Node :=
  html.ElementNode "form" [attr "action" "http://example.com/list?page=2"] [].

Definition exTransport : Transport :=
  {| NewRequest := fun _ _ => None;
     FromRequest := None;
     Do := inl {| http.Response.StatusCode := 200;
                  http.Response.Header := ∅;
                  http.Response.Request :=
                    {| http.Request.URL :=
                         {| url.Scheme := "http"; url.Host := "example.com";
                            url.Path := "/search"; url.RawQuery := "q=crawler" |} |} |};
     ReadAll := fun _ => (EmptyString, None);
     NewDocumentFromReader := fun _ => inl (exDocument []) |}.

Definition exCrawler : Crawler.t := {| Crawler.options := exOptions false |}.

Definition searchRequest : NavigationRequest.t :=
  {| NavigationRequest.Method := "GET";
     NavigationRequest.URL := "http://example.com/search?q=crawler";
     NavigationRequest.Body := "q=crawler";
     NavigationRequest.Depth := 3;
     NavigationRequest.Headers := ∅;
     NavigationRequest.Source := "form" |}.

(** *** C7, C8: the JS-regex parsers *)

Definition exScript (text : string) : html.Node :=
  html.ElementNode "script" [] [html.TextNode text].

(** The response to [http://example.com/static/app.js], served as
    JavaScript, with an inline script in its parsed document. *)
Definition jsResponse (scrapeJS : bool) : NavigationResponse.t :=
  exResponse "/static/app.js" {[ "Content-Type" := ["application/javascript"] ]} 1 scrapeJS
             (exDocument [exScript "fetch('/api/users')"]) "/api/users".

(** The response to [http://example.com/static/empty.js]: a JavaScript
    file with an empty body. *)
Definition emptyJsResponse : NavigationResponse.t :=
  exResponse "/static/empty.js" {[ "Content-Type" := ["application/javascript"] ]} 1 true
             (exDocument []) EmptyString.

(** *** C9: the button parser *)

(** [<a href="http://example.com/about">] and
    [<button formaction="http://example.com/delete">]. *)
Definition buttonPage : NavigationResponse.t :=
  exPage 0 [ html.ElementNode "a" [attr "href" "http://example.com/about"] [];
             html.ElementNode "button" [attr "formaction" "http://example.com/delete"] [] ].

Definition aboutRequest : NavigationRequest.t :=
  NewNavigationRequestURL "http://example.com/about" "a" buttonPage.

(* ------------------------------------------------------------------ *)
(** ** Further descriptions: the document, the query alphabet *)

(** Induction over a document: a property of every child gives the
    property of the element. *)
Fixpoint Node_forall_ind (P : html.Node -> Prop)
    (Helement : forall tag attrs cs, Forall P cs -> P (html.ElementNode tag attrs cs))
    (Htext : forall d, P (html.TextNode d))
    (Hother : P html.OtherNode)
    (n : html.Node) : P n :=
  match n with
  | html.ElementNode tag attrs cs =>
      Helement tag attrs cs
        ((fix children_ind (cs : list html.Node) : Forall P cs :=
            match cs with
            | [] => @List.Forall_nil _ P
            | c :: cs' =>
                @List.Forall_cons _ P c cs' (Node_forall_ind P Helement Htext Hother c)
                            (children_ind cs')
            end) cs)
  | html.TextNode d => Htext d
  | html.OtherNode => Hother
  end.

(** The action of a selected form resolves. *)
Definition actionResolves `{Navigation} (resp : NavigationResponse.t) (n : html.Node) : bool :=
  negb (isEmpty (AbsoluteURL resp (default EmptyString (goquery.Attr [n] "action")))).

(** [req] is the request a tag parser makes of a selected element: the
    element matches the selector, carries the attribute with a value that
    is not empty, and the request is built from that value. *)
Definition attrCandidate `{Navigation} (resp : NavigationResponse.t) (s : goquery.Selector)
           (attr source : string) (req : NavigationRequest.t) : Prop :=
  exists n v,
    In n (ReaderFind resp s)
    /\ goquery.matches s n = true
    /\ goquery.Attr [n] attr = Some v
    /\ v <> EmptyString
    /\ req = NewNavigationRequestURL v source resp.

(** A second run of the Go runtime: [range] visits the data map in the
    opposite order and the writer draws another boundary. *)
Definition exRuntimeRev : Runtime := {|
  ToUpper := strings.ToUpperASCII;
  ToUpper_ascii := fun _ _ => eq_refl;
  randomBoundary := fun _ => "00112233445566778899aabbccddeeff00112233445566778899aabbccdd";
  rangeOrder := fun _ m => reverse (map_to_list m);
  rangeOrder_perm := fun _ m => reverse_Permutation (map_to_list m)
|}.

(** [<form action="http://example.com/search">] with the inputs [q] and
    [lang]. *)
Definition twoFieldForm : html.Node :=
  html.ElementNode "form" [attr "action" "http://example.com/search"]
    [exInput "q" "crawler"; exInput "lang" "en"].

(** The same two inputs in a multipart [post] form. *)
Definition twoFieldUploadForm : html.Node :=
  html.ElementNode "form"
    [attr "action" "http://example.com/upload"; attr "method" "post";
     attr "enctype" "multipart/form-data"]
    [exInput "q" "crawler"; exInput "lang" "en"].

(** [<a href="http://example.com/about" ping="http://example.com/ping">],
    an anchor with an empty [href], and [<iframe src>] with an empty [src]. *)
Definition linksPage : NavigationResponse.t :=
  exPage 0 [ html.ElementNode "a" [attr "href" "http://example.com/about";
                                   attr "ping" "http://example.com/ping"] [];
             html.ElementNode "a" [attr "href" EmptyString] [];
             html.ElementNode "iframe" [attr "src" EmptyString] [];
             html.ElementNode "embed" [attr "src" "http://example.com/movie.swf"] [] ].

Definition pingRequest : NavigationRequest.t :=
  NewNavigationRequestURL "http://example.com/ping" "a" linksPage.

(** The response struct every early return of [makeRequest] hands back:
    depth and options set, nothing else. *)
Definition bareResponse (c : Crawler.t) (request : NavigationRequest.t)
  : NavigationResponse.raw :=
  {| NavigationResponse.rawResp := None;
     NavigationResponse.rawDepth := wrapInt (NavigationRequest.Depth request + 1);
     NavigationResponse.rawOptions := Crawler.options c;
     NavigationResponse.rawReader := None;
     NavigationResponse.rawBody := None |}.

(** A transport that answers 404, with a body that could be read. *)
Definition notFoundTransport : Transport :=
  {| NewRequest := fun _ _ => None;
     FromRequest := None;
     Do := inl {| http.Response.StatusCode := 404;
                  http.Response.Header := ∅;
                  http.Response.Request :=
                    {| http.Request.URL :=
                         {| url.Scheme := "http"; url.Host := "example.com";
                            url.Path := "/gone"; url.RawQuery := EmptyString |} |} |};
     ReadAll := fun _ => ("<html><a href=/x>x</a></html>", None);
     NewDocumentFromReader := fun _ => inl (exDocument []) |}.

(** A transport whose answer cannot be made a document. *)
Definition badDocumentTransport : Transport :=
  {| NewRequest := fun _ _ => None;
     FromRequest := None;
     Do := Do exTransport;
     ReadAll := fun _ => ("data", None);
     NewDocumentFromReader := fun _ => inr "unexpected EOF" |}.

(** A request at the largest depth an [int] holds. *)
Definition deepestRequest : NavigationRequest.t :=
  {| NavigationRequest.Method := "GET";
     NavigationRequest.URL := "http://example.com/";
     NavigationRequest.Body := EmptyString;
     NavigationRequest.Depth := 2 ^ 63 - 1;
     NavigationRequest.Headers := ∅;
     NavigationRequest.Source := "a" |}.

(** A response with two [Location] values and an empty [Content-Location]. *)
Definition redirectResponse : NavigationResponse.t :=
  exResponse "/old"
    {[ "Location" := ["http://example.com/new"; "http://example.com/other"];
       "Content-Location" := [EmptyString; "http://example.com/ignored"] ]}
    0 false (exDocument []) EmptyString.

(** The bytes that may stand in a query string: ASCII letters and digits,
    the marks [-] [_] [.] [~], and [+] [%] [&] [=].  The set is given by
    its members, apart from any encoder. *)
Definition queryBytes : string :=
  "abcdefghijklmnopqrstuvwxyzABCDEFGHIJKLMNOPQRSTUVWXYZ0123456789-_.~+%&=".

Definition queryByte (c : ascii) : bool := strings.ContainsByte queryBytes c.

Fixpoint allBytes (p : ascii -> bool) (s : string) : bool :=
  match s with
  | EmptyString => true
  | String c s' => p c && allBytes p s'
  end.

(** A form whose input value needs escaping. *)
Definition escapingForm : html.Node :=
  html.ElementNode "form" [attr "action" "http://example.com/search"]
    [exInput "q" "what is #1? a&b"].

(** The tags of the elements of a document, and the tags the registered
    body parsers select. *)
Fixpoint tagsOf (n : html.Node) : list string :=
  match n with
  | html.ElementNode tag _ cs => tag :: flat_map tagsOf cs
  | _ => []
  end.

Definition parserTags : list string :=
  [ "a"; "embed"; "frame"; "iframe"; "input"; "isindex"; "script"; "form"; "meta" ].

Definition hasParserTag (n : html.Node) : bool :=
  existsb (fun tag => existsb (String.eqb tag) parserTags) (tagsOf n).

(** A page of text: [<p>nothing here</p>]. *)
Definition textPage : NavigationResponse.t :=
  exPage 0 [html.ElementNode "p" [] [html.TextNode "nothing here"]].

(** The same search form with [method="Post"] and with an empty [method]. *)
Definition mixedCaseForm : html.Node :=
  html.ElementNode "form" [attr "action" "http://example.com/search"; attr "method" "Post"]
    [exInput "q" "crawler"].

Definition emptyMethodForm : html.Node :=
  html.ElementNode "form" [attr "action" "http://example.com/search"; attr "method" EmptyString]
    [exInput "q" "crawler"].

(* ------------------------------------------------------------------ *)
(** ** Properties *)

Lemma string_app_cons (x : ascii) (a b : string) : String x a +:+ b = String x (a +:+ b).
Proof. reflexivity. Qed.

Lemma string_app_assoc (a b c : string) : (a +:+ b) +:+ c = a +:+ (b +:+ c).
Proof.
  induction a as [|x a IH]; [reflexivity|].
  rewrite !string_app_cons. now rewrite IH.
Qed.

Lemma string_app_nil_r (a : string) : a +:+ EmptyString = a.
Proof.
  induction a as [|x a IH]; [reflexivity|].
  rewrite string_app_cons. now rewrite IH.
Qed.

Lemma isEmpty_false (s : string) : isEmpty s = false <-> s <> EmptyString.
Proof. destruct s; simpl; split; congruence. Qed.

Lemma prefix_app (p s : string) :
  String.prefix p s = true <-> exists r, s = p +:+ r.
Proof.
  revert s. induction p as [|a p IH]; intros s.
  - split; [intros _; exists s; reflexivity|]. intros _. now destruct s.
  - destruct s as [|b s]; simpl.
    + split; [discriminate|]. intros (r & Hr). discriminate Hr.
    + destruct (ascii_dec a b) as [->|Hne].
      * rewrite IH. split; intros (r & Hr); exists r.
        -- rewrite string_app_cons. now rewrite Hr.
        -- rewrite string_app_cons in Hr. now injection Hr.
      * split; [discriminate|]. intros (r & Hr).
        rewrite string_app_cons in Hr. injection Hr as Hab _. now elim Hne.
Qed.

Lemma rev_acc (s acc : string) : strings.rev s acc = strings.rev s EmptyString +:+ acc.
Proof.
  revert acc. induction s as [|c s IH]; intros acc; [reflexivity|].
  simpl. rewrite IH, (IH (String c EmptyString)), string_app_assoc. reflexivity.
Qed.

Lemma rev_app (a b : string) :
  strings.rev (a +:+ b) EmptyString = strings.rev b EmptyString +:+ strings.rev a EmptyString.
Proof.
  induction a as [|c a IH].
  - simpl. now rewrite string_app_nil_r.
  - rewrite string_app_cons. simpl.
    rewrite (rev_acc (a +:+ b)), IH, (rev_acc a (String c EmptyString)), string_app_assoc.
    reflexivity.
Qed.

Lemma rev_involutive (s : string) : strings.rev (strings.rev s EmptyString) EmptyString = s.
Proof.
  induction s as [|c s IH]; [reflexivity|].
  simpl. rewrite (rev_acc s (String c EmptyString)), rev_app, IH. reflexivity.
Qed.

(** [HasSuffix] holds exactly of the strings that end in the suffix. *)
Lemma HasSuffix_app (s suffix : string) :
  strings.HasSuffix s suffix = true <-> exists p, s = p +:+ suffix.
Proof.
  unfold strings.HasSuffix. rewrite prefix_app. split.
  - intros (r & Hr). exists (strings.rev r EmptyString).
    rewrite <- (rev_involutive s), Hr, rev_app, rev_involutive. reflexivity.
  - intros (p & ->). exists (strings.rev p EmptyString). apply rev_app.
Qed.

(** [Contains] holds exactly of the strings the other occurs in. *)
Lemma Contains_app (s substr : string) :
  strings.Contains s substr = true <-> exists a b, s = a +:+ substr +:+ b.
Proof.
  induction s as [|c s IH].
  - change (strings.Contains EmptyString substr)
      with (String.prefix substr EmptyString || false).
    rewrite orb_false_r, prefix_app. split.
    + intros (r & Hr). exists EmptyString, r. exact Hr.
    + intros (a & b & Hab). destruct a; [|discriminate Hab]. exists b. exact Hab.
  - change (strings.Contains (String c s) substr)
      with (String.prefix substr (String c s) || strings.Contains s substr).
    rewrite orb_true_iff, IH, prefix_app. split.
    + intros [(r & Hr)|(a & b & Hab)].
      * exists EmptyString, r. exact Hr.
      * exists (String c a), b. rewrite string_app_cons. now rewrite Hab.
    + intros (a & b & Hab). destruct a as [|c' a].
      * left. exists b. exact Hab.
      * right. rewrite string_app_cons in Hab. injection Hab as _ Hab. eauto.
Qed.

Section Iteration.
Context {A : Type}.
Implicit Types (f : nat -> goquery.Selection -> list A) (sel : goquery.Selection).

Lemma EachFrom_silent f sel :
  (forall i item, f i item = []) -> forall i, goquery.EachFrom i sel f = [].
Proof.
  intros Hf. induction sel as [|n sel IH]; intros i; simpl.
  - reflexivity.
  - rewrite Hf, IH. reflexivity.
Qed.

(** Whatever [Each] emits was emitted by the closure on one of the nodes. *)
Lemma In_EachFrom f sel x :
  forall i, In x (goquery.EachFrom i sel f) ->
            exists j n, sel !! j = Some n /\ In x (f (i + j)%nat [n]).
Proof.
  induction sel as [|n sel IH]; intros i Hin; simpl in Hin.
  - contradiction.
  - apply in_app_or in Hin as [Hin|Hin].
    + exists 0%nat, n. split; [reflexivity|]. now rewrite Nat.add_0_r.
    + destruct (IH _ Hin) as (j & m & Hj & Hm).
      exists (S j), m. split; [exact Hj|]. now rewrite Nat.add_succ_r.
Qed.

(** And what the closure emits on a node of the selection, [Each] emits. *)
Lemma EachFrom_In f sel x :
  forall i j n, sel !! j = Some n -> In x (f (i + j)%nat [n]) ->
                In x (goquery.EachFrom i sel f).
Proof.
  induction sel as [|m sel IH]; intros i j n Hj Hin; [discriminate Hj|].
  simpl. apply in_or_app. destruct j as [|j].
  - left. injection Hj as ->. now rewrite Nat.add_0_r in Hin.
  - right. apply (IH (S i) j n Hj). now rewrite Nat.add_succ_r in Hin.
Qed.

Lemma In_Each f sel x :
  In x (goquery.Each sel f) <-> exists j n, sel !! j = Some n /\ In x (f j [n]).
Proof.
  split.
  - intros Hin. apply (In_EachFrom f sel x 0%nat Hin).
  - intros (j & n & Hj & Hin). apply (EachFrom_In f sel x 0%nat j n Hj Hin).
Qed.

End Iteration.

Section Pipeline.
Context `{Navigation} `{Utils} `{Runtime}.

Lemma foldl_emit (parsers : list responseParserFunc) resp (emitted : list NavigationRequest.t) :
  foldl (fun emitted parser => emitted ++ parser resp) emitted parsers
  = emitted ++ runParsers parsers resp.
Proof.
  unfold runParsers. revert emitted.
  induction parsers as [|p ps IH]; intros emitted; simpl.
  - now rewrite app_nil_r.
  - rewrite IH, (IH (p resp)). now rewrite List.app_assoc.
Qed.

Lemma runParsers_cons p ps resp :
  runParsers (p :: ps) resp = p resp ++ runParsers ps resp.
Proof. unfold runParsers at 1. simpl. apply foldl_emit. Qed.

Lemma runParsers_app ps qs resp :
  runParsers (ps ++ qs) resp = runParsers ps resp ++ runParsers qs resp.
Proof.
  induction ps as [|p ps IH]; simpl.
  - reflexivity.
  - rewrite !runParsers_cons, IH. now rewrite List.app_assoc.
Qed.

Lemma parseResponse_blocks (resp : NavigationResponse.t) :
  parseResponse resp =
    headerContentLocationParser resp ++ headerLinkParser resp ++
    headerLocationParser resp ++ headerRefreshParser resp ++
    bodyATagParser resp ++ bodyEmbedTagParser resp ++ bodyFrameTagParser resp ++
    bodyIframeTagParser resp ++ bodyInputSrcTagParser resp ++
    bodyIsindexActionTagParser resp ++ bodyScriptSrcTagParser resp ++
    bodyFormTagParser resp ++ bodyMetaContentTagParser resp ++
    scriptContentRegexParser resp ++ scriptJSFileRegexParser resp.
Proof.
  unfold parseResponse, responseParsers.
  rewrite !runParsers_cons. unfold runParsers; simpl.
  now rewrite app_nil_r.
Qed.

(** C5. Every response is run through the whole registry: each registered
    parser contributes its requests exactly once, in registration order
    (the four header parsers, the nine tag parsers, the two JS-regex
    parsers), the requests of one parser forming one block before the next
    parser's; and wherever a parser stands in the registry, its block is
    there whatever the parsers before it emitted. *)
Theorem C5_registry_order (resp : NavigationResponse.t) :
  parseResponse resp =
    headerContentLocationParser resp ++ headerLinkParser resp ++
    headerLocationParser resp ++ headerRefreshParser resp ++
    bodyATagParser resp ++ bodyEmbedTagParser resp ++ bodyFrameTagParser resp ++
    bodyIframeTagParser resp ++ bodyInputSrcTagParser resp ++
    bodyIsindexActionTagParser resp ++ bodyScriptSrcTagParser resp ++
    bodyFormTagParser resp ++ bodyMetaContentTagParser resp ++
    scriptContentRegexParser resp ++ scriptJSFileRegexParser resp
  /\ (forall before parser after,
        responseParsers = before ++ parser :: after ->
        parseResponse resp =
          runParsers before resp ++ parser resp ++ runParsers after resp)
  /\ (forall before parser after,
        responseParsers = before ++ parser :: after ->
        runParsers before resp = [] ->
        parseResponse resp = parser resp ++ runParsers after resp).
Proof.
  assert (Hsplit : forall before parser after,
             responseParsers = before ++ parser :: after ->
             parseResponse resp =
               runParsers before resp ++ parser resp ++ runParsers after resp).
  { intros before parser after Heq. unfold parseResponse.
    now rewrite Heq, runParsers_app, runParsers_cons. }
  split; [|split].
  - apply parseResponse_blocks.
  - exact Hsplit.
  - intros before parser after Heq Hnone.
    now rewrite (Hsplit _ _ _ Heq), Hnone.
Qed.

End Pipeline.

Section JSParsers.
Context `{Navigation} `{Utils} `{Runtime}.

(** C7. With [ScrapeJSResponses] false, the script-content parser and the
    js-file parser hand nothing to the callback, whatever the document's
    scripts, the request URL or the [Content-Type] are. *)
Theorem C7_js_parsers_disabled (resp : NavigationResponse.t) :
  ScrapeJSResponses resp = false ->
  scriptContentRegexParser resp = [] /\ scriptJSFileRegexParser resp = [].
Proof.
  intros Hoff. split.
  - unfold scriptContentRegexParser, goquery.Each.
    apply EachFrom_silent. intros i item. now rewrite Hoff.
  - unfold scriptJSFileRegexParser. now rewrite Hoff.
Qed.

Lemma scriptJSFileRegexParser_enabled (resp : NavigationResponse.t) :
  ScrapeJSResponses resp = true ->
  scriptJSFileRegexParser resp =
    if isJSFile resp
    then map (fun item => NewNavigationRequestURL item "js-file" resp)
             (ExtractRelativeEndpoints (NavigationResponse.Body resp))
    else [].
Proof.
  intros Hon. unfold scriptJSFileRegexParser. rewrite Hon. simpl.
  now destruct (isJSFile resp).
Qed.

End JSParsers.

Section Sources.
Context `{Navigation} `{Utils} `{Runtime}.

(** The constructor stores the source tag it is given. *)
Hypothesis NewNavigationRequestURL_Source :
  forall path source resp,
    NavigationRequest.Source (NewNavigationRequestURL path source resp) = source.

Lemma attrRequest_Source resp attr source item req :
  In req (attrRequest resp attr source item) -> NavigationRequest.Source req = source.
Proof using NewNavigationRequestURL_Source.
  unfold attrRequest. destruct (goquery.Attr item attr) as [v|]; [|contradiction].
  destruct (isEmpty v); [contradiction|].
  intros [<-|[]]. apply NewNavigationRequestURL_Source.
Qed.

Lemma map_Source resp source values req :
  In req (map (fun value => NewNavigationRequestURL value source resp) values) ->
  NavigationRequest.Source req = source.
Proof using NewNavigationRequestURL_Source.
  intros Hin. apply in_map_iff in Hin as (v & <- & _). apply NewNavigationRequestURL_Source.
Qed.

Lemma formRequest_Source resp i item req :
  In req (formRequest resp i item) -> NavigationRequest.Source req = "form".
Proof.
  unfold formRequest. destruct (goquery.Attr item "action") as [href|]; [|contradiction].
  destruct (isEmpty (AbsoluteURL resp href)); [contradiction|].
  intros [<-|[]].
  destruct (String.eqb (formMethod item) "GET"); [reflexivity|].
  destruct (String.eqb (formMethod item) "POST"); reflexivity.
Qed.

(** C8 (as the code has it). With JS scraping enabled, the js-file parser
    applies exactly when the path of the request URL ends in [.js] or the
    [Content-Type] header has [/javascript] in it: when it does not apply it
    emits nothing, and when it applies it emits one request per endpoint the
    extraction finds in the whole response body, in order, each with source
    [js-file].  So it emits a candidate exactly when it applies and the
    extraction finds an endpoint; a JavaScript response in which nothing is
    found yields nothing. *)
Theorem C8_js_file_parser (resp : NavigationResponse.t) :
  ScrapeJSResponses resp = true ->
  let path := url.Path (http.Request.URL (http.Response.Request (NavigationResponse.Resp resp))) in
  let contentType := http.Get (Header resp) "Content-Type" in
  let endpoints := ExtractRelativeEndpoints (NavigationResponse.Body resp) in
  let javascript :=
    (exists stem, path = stem +:+ ".js")
    \/ (exists before after, contentType = before +:+ "/javascript" +:+ after) in
  (~ javascript -> scriptJSFileRegexParser resp = [])
  /\ (javascript ->
      scriptJSFileRegexParser resp =
        map (fun item => NewNavigationRequestURL item "js-file" resp) endpoints
      /\ length (scriptJSFileRegexParser resp) = length endpoints)
  /\ (forall req, In req (scriptJSFileRegexParser resp) ->
                  javascript /\ NavigationRequest.Source req = "js-file")
  /\ (scriptJSFileRegexParser resp <> [] <-> javascript /\ endpoints <> []).
Proof using NewNavigationRequestURL_Source.
  intros Hon path contentType endpoints javascript.
  pose proof (scriptJSFileRegexParser_enabled resp Hon) as Hrun.
  fold endpoints in Hrun.
  assert (Hguard : isJSFile resp = true <-> javascript).
  { unfold isJSFile, javascript. fold path. fold contentType.
    now rewrite orb_true_iff, HasSuffix_app, Contains_app. }
  destruct (isJSFile resp) eqn:Hjs.
  - assert (Hyes : javascript) by now apply Hguard.
    split; [|split; [|split]].
    + intros Hno. now elim Hno.
    + intros _. rewrite Hrun. split; [reflexivity|]. apply length_map.
    + intros req Hin. rewrite Hrun in Hin. split; [exact Hyes|].
      eapply map_Source; eassumption.
    + rewrite Hrun. split.
      * intros Hne. split; [exact Hyes|]. intros Hnil. apply Hne. now rewrite Hnil.
      * intros [_ Hne] Hmap. apply Hne. now apply map_eq_nil in Hmap.
  - assert (Hno : ~ javascript) by (intros Hyes; apply Hguard in Hyes; discriminate).
    split; [|split; [|split]].
    + intros _. exact Hrun.
    + intros Hyes. now elim Hno.
    + intros req Hin. rewrite Hrun in Hin. contradiction.
    + rewrite Hrun. split; [intros Hne; now elim Hne | intros [Hyes _]; now elim Hno].
Qed.

Ltac each_source :=
  let Hin := fresh "Hin" in
  intros Hin; apply In_Each in Hin as (? & ? & _ & Hin);
  repeat (apply in_app_or in Hin as [Hin|Hin]);
  eapply attrRequest_Source; eassumption.

Ltac in_sources := unfold registeredSources; simpl; tauto.

Lemma parseResponse_Source resp req :
  In req (parseResponse resp) -> In (NavigationRequest.Source req) registeredSources.
Proof using NewNavigationRequestURL_Source.
  rewrite parseResponse_blocks.
  rewrite !in_app_iff.
  intros [Hin|[Hin|[Hin|[Hin|[Hin|[Hin|[Hin|[Hin|[Hin|[Hin|[Hin|[Hin|[Hin|[Hin|Hin]]]]]]]]]]]]]].
  - unfold headerContentLocationParser in Hin.
    destruct (isEmpty _); [contradiction|]. destruct Hin as [<-|[]].
    rewrite NewNavigationRequestURL_Source. in_sources.
  - unfold headerLinkParser in Hin.
    destruct (isEmpty _); [contradiction|].
    rewrite (map_Source _ _ _ _ Hin). in_sources.
  - unfold headerLocationParser in Hin.
    destruct (isEmpty _); [contradiction|]. destruct Hin as [<-|[]].
    rewrite NewNavigationRequestURL_Source. in_sources.
  - unfold headerRefreshParser in Hin.
    destruct (isEmpty _); [contradiction|].
    destruct (isEmpty _); [contradiction|]. destruct Hin as [<-|[]].
    rewrite NewNavigationRequestURL_Source. in_sources.
  - assert (NavigationRequest.Source req = "a") as -> by (revert Hin; each_source).
    in_sources.
  - assert (NavigationRequest.Source req = "embed") as -> by (revert Hin; each_source).
    in_sources.
  - assert (NavigationRequest.Source req = "frame") as -> by (revert Hin; each_source).
    in_sources.
  - assert (NavigationRequest.Source req = "iframe") as -> by (revert Hin; each_source).
    in_sources.
  - assert (NavigationRequest.Source req = "input") as -> by (revert Hin; each_source).
    in_sources.
  - assert (NavigationRequest.Source req = "isindex") as -> by (revert Hin; each_source).
    in_sources.
  - assert (NavigationRequest.Source req = "script") as -> by (revert Hin; each_source).
    in_sources.
  - apply In_Each in Hin as (i & n & _ & Hin).
    rewrite (formRequest_Source _ _ _ _ Hin). in_sources.
  - apply In_Each in Hin as (i & n & _ & Hin).
    destruct (goquery.Attr [n] "content") as [header|]; [|contradiction].
    cbv zeta in Hin.
    destruct (isEmpty (ParseRefreshTag header)); [contradiction|]. destruct Hin as [<-|[]].
    rewrite NewNavigationRequestURL_Source. in_sources.
  - apply In_Each in Hin as (i & n & _ & Hin).
    destruct (negb (ScrapeJSResponses resp)); [contradiction|].
    cbv zeta in Hin.
    destruct (isEmpty (goquery.Text [n])); [contradiction|].
    rewrite (map_Source _ _ _ _ Hin). in_sources.
  - unfold scriptJSFileRegexParser in Hin.
    destruct (negb (ScrapeJSResponses resp)); [contradiction|].
    destruct (negb (isJSFile resp)); [contradiction|].
    rewrite (map_Source _ _ _ _ Hin). in_sources.
Qed.

(** C9. No request the pipeline emits carries the source tag [button]:
    [bodyButtonFormactionTagParser] is defined but is not one of the
    registered parsers, and no registered parser uses that tag. *)
Theorem C9_no_button_source (resp : NavigationResponse.t) (req : NavigationRequest.t) :
  In req (parseResponse resp) -> NavigationRequest.Source req <> "button".
Proof using NewNavigationRequestURL_Source.
  intros Hin Hbutton. apply parseResponse_Source in Hin.
  rewrite Hbutton in Hin. unfold registeredSources in Hin. simpl in Hin.
  repeat (destruct Hin as [Hin|Hin]; [discriminate Hin|]). exact Hin.
Qed.

End Sources.

Section Writers.
Context `{Navigation} `{Utils} `{Runtime}.

Lemma writeEntry_multipart qv w (l : list (string * string)) :
  foldl (writeEntry true) {| queryValuesWriter := qv; multipartWriter := Some w |} l =
  {| queryValuesWriter := qv;
     multipartWriter :=
       Some {| multipart.boundary := multipart.boundary w;
               multipart.sb :=
                 multipart.sb w +:+
                 multipartParts (multipart.boundary w) (negb (multipart.lastpart w))
                                (List.filter submitted l);
               multipart.lastpart :=
                 multipart.lastpart w || negb (forallb (fun e => negb (submitted e)) l) |} |}.
Proof.
  revert w. induction l as [|[key value] l IH]; intros w.
  - simpl. rewrite string_app_nil_r, orb_false_r. now destruct w.
  - simpl foldl. simpl List.filter. simpl forallb.
    assert (Hsub : submitted (key, value) = negb (isEmpty key || isEmpty value))
      by reflexivity.
    rewrite !Hsub.
    destruct (isEmpty key || isEmpty value) eqn:Hskip; simpl negb; cbv iota.
    + simpl andb. apply IH.
    + rewrite IH. simpl. rewrite orb_true_r.
      do 3 f_equal. unfold multipartPart. simpl fst. simpl snd.
      destruct (multipart.lastpart w); simpl negb; cbv iota;
        now rewrite !string_app_assoc.
Qed.

Lemma writeEntry_urlencoded qv mw (l : list (string * string)) :
  foldl (writeEntry false) {| queryValuesWriter := qv; multipartWriter := mw |} l =
  {| queryValuesWriter := foldl setEntry qv l; multipartWriter := mw |}.
Proof.
  revert qv. induction l as [|[key value] l IH]; intros qv; [reflexivity|].
  simpl foldl. unfold setEntry at 2, submitted. simpl fst. simpl snd.
  destruct (isEmpty key || isEmpty value); simpl negb; cbv iota; apply IH.
Qed.

Lemma setEntry_lookup (l : list (string * string)) :
  NoDup (l.*1) ->
  forall (qv : url.Values) k,
    foldl setEntry qv l !! k =
    match (list_to_map l : gmap string string) !! k with
    | Some v => if submitted (k, v) then Some [v] else qv !! k
    | None => qv !! k
    end.
Proof.
  induction l as [|[key value] l IH]; intros Hnodup qv k.
  - simpl. now rewrite lookup_empty.
  - simpl in Hnodup. apply NoDup_cons in Hnodup as [Hfresh Hnodup].
    simpl foldl. rewrite (IH Hnodup). rewrite list_to_map_cons.
    destruct (decide (key = k)) as [->|Hne].
    + rewrite lookup_insert_eq.
      rewrite (not_elem_of_list_to_map_1 l k Hfresh).
      unfold setEntry, url.Set_. simpl fst. simpl snd.
      destruct (submitted (k, value)); [now rewrite lookup_insert_eq | reflexivity].
    + rewrite (lookup_insert_ne _ key k) by exact Hne.
      assert (setEntry qv (key, value) !! k = qv !! k) as ->; [|reflexivity].
      unfold setEntry, url.Set_. simpl fst. simpl snd.
      destruct (submitted (key, value)); [now rewrite lookup_insert_ne | reflexivity].
Qed.

Lemma NoDup_fst_filter (p : string * string -> bool) (l : list (string * string)) :
  NoDup (l.*1) -> NoDup ((List.filter p l).*1).
Proof.
  induction l as [|[k v] l IH]; simpl; [auto|].
  intros Hnd. apply NoDup_cons in Hnd as [Hk Hnd].
  destruct (p (k, v)); [|auto].
  simpl. apply NoDup_cons. split; [|auto].
  intros Hin. apply Hk.
  apply list_elem_of_fmap in Hin as ([k' v'] & -> & Hin).
  apply list_elem_of_In, filter_In in Hin as [Hin _].
  apply list_elem_of_fmap. exists (k', v'). split; [reflexivity|].
  now apply list_elem_of_In.
Qed.

Lemma In_rangeOrder i (m : gmap string string) k v :
  In (k, v) (rangeOrder i m) <-> m !! k = Some v.
Proof.
  rewrite <- list_elem_of_In, (rangeOrder_perm i m). apply elem_of_map_to_list.
Qed.

Lemma submitted_true k v :
  submitted (k, v) = true <-> k <> EmptyString /\ v <> EmptyString.
Proof.
  unfold submitted. simpl. rewrite negb_true_iff, orb_false_iff.
  now rewrite !isEmpty_false.
Qed.

(** The submitted fields are the entries of the data map with a key and a
    value that are not empty. *)
Lemma formFields_In i (item : goquery.Selection) k v :
  In (k, v) (formFields i item) <->
  formDataMap item !! k = Some v /\ k <> EmptyString /\ v <> EmptyString.
Proof.
  unfold formFields. rewrite filter_In, In_rangeOrder, submitted_true. reflexivity.
Qed.

Lemma formFields_NoDup i (item : goquery.Selection) : NoDup ((formFields i item).*1).
Proof.
  unfold formFields. apply NoDup_fst_filter.
  rewrite (rangeOrder_perm i). apply NoDup_fst_map_to_list.
Qed.

(** A multipart form: the query values stay empty, the body is the
    multipart message of the submitted fields under the drawn boundary, and
    the content type names that boundary. *)
Lemma filledWriters_multipart i item :
  isMultipartForm item = true ->
  queryValuesWriter (filledWriters i item) = ∅
  /\ formBody i item = multipartMessage (randomBoundary i) (formFields i item)
  /\ formContentType i item =
       "multipart/form-data; boundary=" +:+ boundaryParam (randomBoundary i).
Proof.
  intros Hmp. unfold formBody, formContentType, filledWriters, newFormWriters.
  rewrite Hmp. unfold multipart.NewWriter. rewrite writeEntry_multipart.
  simpl. split; [reflexivity | split; reflexivity].
Qed.

(** Any other form: no multipart writer, the body is the encoded query
    values, which hold exactly the submitted entries of the data map. *)
Lemma filledWriters_urlencoded i item :
  isMultipartForm item = false ->
  formBody i item = url.Encode (queryValuesWriter (filledWriters i item))
  /\ formContentType i item = formEncType item
  /\ (forall k, queryValuesWriter (filledWriters i item) !! k
                = queryValueOf (formDataMap item) k).
Proof.
  intros Hmp. unfold formBody, formContentType, filledWriters, newFormWriters.
  rewrite Hmp. rewrite writeEntry_urlencoded. simpl. repeat split.
  intros k. rewrite setEntry_lookup.
  - rewrite (list_to_map_proper _ (map_to_list (formDataMap item))).
    + rewrite list_to_map_to_list, lookup_empty. unfold queryValueOf.
      destruct (formDataMap item !! k) as [v|]; [|reflexivity].
      now destruct (submitted (k, v)).
    + rewrite (rangeOrder_perm i). apply NoDup_fst_map_to_list.
    + apply rangeOrder_perm.
  - rewrite (rangeOrder_perm i). apply NoDup_fst_map_to_list.
Qed.

End Writers.

(* ------------------------------------------------------------------ *)
(** ** The form parser: the request it emits *)

Section Forms.
Context `{Navigation} `{Utils} `{Runtime}.

Implicit Types (resp : NavigationResponse.t) (item : goquery.Selection).

(** A form whose [action] is there and resolves yields one request. *)
Lemma formRequest_emits resp i item href :
  goquery.Attr item "action" = Some href ->
  AbsoluteURL resp href <> EmptyString ->
  formRequest resp i item =
    [ {| NavigationRequest.Method := formMethod item;
         NavigationRequest.URL :=
           if String.eqb (formMethod item) "GET"
           then AbsoluteURL resp href +:+ "?"
                  +:+ url.Encode (queryValuesWriter (filledWriters i item))
           else AbsoluteURL resp href;
         NavigationRequest.Body := formBody i item;
         NavigationRequest.Depth := NavigationResponse.Depth resp;
         NavigationRequest.Headers :=
           if String.eqb (formMethod item) "GET" then ∅
           else if String.eqb (formMethod item) "POST"
                then {[ "Content-Type" := formContentType i item ]}
                else ∅;
         NavigationRequest.Source := "form" |} ].
Proof.
  intros Haction Hresolves. unfold formRequest. rewrite Haction.
  apply isEmpty_false in Hresolves. rewrite Hresolves.
  destruct (String.eqb (formMethod item) "GET"); [reflexivity|].
  destruct (String.eqb (formMethod item) "POST"); reflexivity.
Qed.

(** The requests of the form parser are those of the closure on the
    [form[action]] elements of the document, each with its index. *)
Lemma bodyFormTagParser_In resp req :
  In req (bodyFormTagParser resp) <->
  exists i n,
    ReaderFind resp (goquery.TagAttr "form" "action") !! i = Some n
    /\ In req (formRequest resp i [n]).
Proof. unfold bodyFormTagParser. apply In_Each. Qed.

Lemma formRequest_Depth resp i item req :
  In req (formRequest resp i item) ->
  NavigationRequest.Depth req = NavigationResponse.Depth resp.
Proof.
  unfold formRequest. destruct (goquery.Attr item "action") as [href|]; [|contradiction].
  destruct (isEmpty (AbsoluteURL resp href)); [contradiction|].
  intros [<-|[]].
  destruct (String.eqb (formMethod item) "GET"); [reflexivity|].
  destruct (String.eqb (formMethod item) "POST"); reflexivity.
Qed.

Lemma makeRequest_Depth c io request :
  NavigationResponse.rawDepth (makeRequest c io request).1
  = wrapInt (NavigationRequest.Depth request + 1).
Proof.
  unfold makeRequest.
  destruct (NewRequest io _ _); [reflexivity|].
  destruct (FromRequest io); [reflexivity|].
  destruct (Do io) as [resp|err]; [|reflexivity].
  destruct (http.Response.StatusCode resp =? 404); [reflexivity|].
  destruct (ReadAll io _) as [data [err|]]; [reflexivity|].
  destruct (NewDocumentFromReader io data); reflexivity.
Qed.

Lemma wrapInt_id x : - 2 ^ 63 <= x < 2 ^ 63 -> wrapInt x = x.
Proof. intros Hx. unfold wrapInt. rewrite Z.mod_small; lia. Qed.

Lemma populated_Depth (r : NavigationResponse.raw) resp :
  NavigationResponse.populated r = Some resp ->
  NavigationResponse.Depth resp = NavigationResponse.rawDepth r.
Proof.
  unfold NavigationResponse.populated.
  destruct (NavigationResponse.rawResp r); [|discriminate].
  destruct (NavigationResponse.rawReader r); [|discriminate].
  now intros [= <-].
Qed.

(** C1 (as the code has it). A form without a [method] attribute, whose
    action resolves, yields one request with method [GET] whose URL is the
    action URL, a [?] and the encoded query values; for a form that is not
    multipart those are the submitted fields of the form.  The body is not
    discarded: it is the payload any other method would carry, for a
    non-multipart form the same encoded fields. *)
Theorem C1_method_omitted resp i item href :
  goquery.Attr item "method" = None ->
  goquery.Attr item "action" = Some href ->
  AbsoluteURL resp href <> EmptyString ->
  exists req,
    formRequest resp i item = [req]
    /\ NavigationRequest.Method req = "GET"
    /\ NavigationRequest.URL req =
         AbsoluteURL resp href +:+ "?"
           +:+ url.Encode (queryValuesWriter (filledWriters i item))
    /\ NavigationRequest.Headers req = ∅
    /\ NavigationRequest.Body req = formBody i item
    /\ (isMultipartForm item = false ->
        NavigationRequest.Body req = url.Encode (queryValuesWriter (filledWriters i item))
        /\ forall k, queryValuesWriter (filledWriters i item) !! k
                     = queryValueOf (formDataMap item) k).
Proof.
  intros Hmethod Haction Hresolves.
  assert (Hget : formMethod item = "GET").
  { unfold formMethod. rewrite Hmethod. simpl. now rewrite ToUpper_ascii. }
  eexists. split; [apply (formRequest_emits _ _ _ _ Haction Hresolves)|].
  rewrite Hget. simpl.
  do 4 (split; [reflexivity|]).
  intros Hmp. destruct (filledWriters_urlencoded i item Hmp) as (Hbody & _ & Hvalues).
  now split.
Qed.

(** C2 (as the code has it). A request the form parser emits carries the
    depth of the response it was found in, unchanged; the increment is
    [makeRequest]'s, which gives the response it builds for a request that
    request's depth plus one (in 64-bit arithmetic).  So along a hop
    response, form request, response the depth grows by one, and a response
    the parsers are run on next has the depth of the first plus one. *)
Theorem C2_depth_per_hop resp req c io :
  In req (bodyFormTagParser resp) ->
  - 2 ^ 63 <= NavigationResponse.Depth resp < 2 ^ 63 - 1 ->
  NavigationRequest.Depth req = NavigationResponse.Depth resp
  /\ NavigationResponse.rawDepth (makeRequest c io req).1
     = NavigationResponse.Depth resp + 1
  /\ (forall next,
        NavigationResponse.populated (makeRequest c io req).1 = Some next ->
        NavigationResponse.Depth next = NavigationResponse.Depth resp + 1).
Proof.
  intros Hin Hrange. apply In_Each in Hin as (i & n & _ & Hin).
  apply formRequest_Depth in Hin.
  assert (Hnext : NavigationResponse.rawDepth (makeRequest c io req).1
                  = NavigationResponse.Depth resp + 1).
  { rewrite makeRequest_Depth, Hin. apply wrapInt_id. lia. }
  split; [exact Hin|]. split; [exact Hnext|].
  intros next Hpop. now rewrite (populated_Depth _ _ Hpop).
Qed.

(** C3 (as the code has it). A form whose method is not [GET], and whose
    action resolves, yields one request to the action URL with the encoded
    payload as its body: for a multipart form the multipart message of the
    submitted fields, otherwise the encoded query values, which hold exactly
    the submitted entries of the data map.  When the method is [POST] the request
    has the single header [Content-Type], set to the multipart content type
    with the writer's boundary, or to the enctype (the default one when the
    attribute is missing or empty); for any other method no header is
    set. *)
Theorem C3_non_get_payload resp i item href :
  formMethod item <> "GET" ->
  goquery.Attr item "action" = Some href ->
  AbsoluteURL resp href <> EmptyString ->
  exists req,
    formRequest resp i item = [req]
    /\ NavigationRequest.URL req = AbsoluteURL resp href
    /\ NavigationRequest.Body req = formBody i item
    /\ (formMethod item = "POST" ->
        NavigationRequest.Headers req = {[ "Content-Type" := formContentType i item ]})
    /\ (formMethod item <> "POST" -> NavigationRequest.Headers req = ∅)
    /\ (isMultipartForm item = true ->
        formBody i item = multipartMessage (randomBoundary i) (formFields i item)
        /\ (forall k v,
               In (k, v) (formFields i item) <->
               formDataMap item !! k = Some v /\ k <> EmptyString /\ v <> EmptyString)
        /\ formContentType i item =
             "multipart/form-data; boundary=" +:+ boundaryParam (randomBoundary i))
    /\ (isMultipartForm item = false ->
        formBody i item = url.Encode (queryValuesWriter (filledWriters i item))
        /\ (forall k, queryValuesWriter (filledWriters i item) !! k
                      = queryValueOf (formDataMap item) k)
        /\ formContentType i item = formEncType item).
Proof.
  intros Hmethod Haction Hresolves.
  apply String.eqb_neq in Hmethod.
  eexists. split; [apply (formRequest_emits _ _ _ _ Haction Hresolves)|].
  rewrite Hmethod.
  cbn [NavigationRequest.URL NavigationRequest.Body NavigationRequest.Headers].
  split; [reflexivity|]. split; [reflexivity|].
  split; [intros Hpost; now rewrite Hpost|].
  split; [intros Hother; apply String.eqb_neq in Hother; now rewrite Hother|].
  split.
  - intros Hmp. destruct (filledWriters_multipart i item Hmp) as (_ & Hbody & Htype).
    split; [exact Hbody|]. split; [|exact Htype].
    intros k v. apply formFields_In.
  - intros Hmp. destruct (filledWriters_urlencoded i item Hmp) as (Hbody & Htype & Hvalues).
    split; [exact Hbody|]. split; [exact Hvalues | exact Htype].
Qed.

End Forms.

Section FormBoundaries.
Context `{Navigation} `{Utils} `{Runtime}.

Implicit Types (resp : NavigationResponse.t) (item : goquery.Selection).

Lemma rangeOrder_empty i : rangeOrder i ∅ = [].
Proof.
  apply Permutation_nil_r. rewrite (rangeOrder_perm i), map_to_list_empty. reflexivity.
Qed.

(** With an empty data map the loop never runs: both writers are as new,
    the multipart one closed. *)
Lemma filledWriters_no_fields i item :
  formDataMap item = ∅ ->
  filledWriters i item =
    {| queryValuesWriter := ∅;
       multipartWriter :=
         if isMultipartForm item
         then Some (multipart.Close (multipart.NewWriter (randomBoundary i)))
         else None |}.
Proof.
  intros Hempty. unfold filledWriters. rewrite Hempty, rangeOrder_empty. simpl.
  now destruct (isMultipartForm item).
Qed.

Lemma formInputsOf_none item :
  goquery.Find item (goquery.Tag "input") = [] -> formInputsOf item = [].
Proof. intros Hnone. unfold formInputsOf. now rewrite Hnone. Qed.

Lemma getAttributeValue_None attrName attrs :
  goquery.getAttributeValue attrName attrs = None ->
  existsb (fun a => String.eqb (html.Key a) attrName) attrs = false.
Proof.
  induction attrs as [|a attrs IH]; simpl; [reflexivity|].
  destruct (String.eqb (html.Key a) attrName); [discriminate|]. exact IH.
Qed.

(** C4 (as the code has it). A multipart form whose action resolves yields
    one request whose body is the multipart message of the submitted fields
    (the entries of the data map with a key and a value that are not empty,
    each once) under the boundary the writer drew.  When the method is [POST] its
    [Content-Type] header is [multipart/form-data] with that same boundary
    as the boundary parameter (bare when the boundary holds no tspecial, as
    generated boundaries do); for any other method, the default [GET]
    included, the request has no [Content-Type] header. *)
Theorem C4_multipart_boundary resp i item href :
  isMultipartForm item = true ->
  goquery.Attr item "action" = Some href ->
  AbsoluteURL resp href <> EmptyString ->
  exists req,
    formRequest resp i item = [req]
    /\ NavigationRequest.Body req = multipartMessage (randomBoundary i) (formFields i item)
    /\ (forall k v,
           In (k, v) (formFields i item) <->
           formDataMap item !! k = Some v /\ k <> EmptyString /\ v <> EmptyString)
    /\ NoDup ((formFields i item).*1)
    /\ (formMethod item = "POST" ->
        NavigationRequest.Headers req !! "Content-Type"
        = Some ("multipart/form-data; boundary=" +:+ boundaryParam (randomBoundary i)))
    /\ (formMethod item <> "POST" ->
        NavigationRequest.Headers req !! "Content-Type" = None)
    /\ (strings.ContainsAny (randomBoundary i) multipart.tspecials = false ->
        boundaryParam (randomBoundary i) = randomBoundary i).
Proof.
  intros Hmp Haction Hresolves.
  destruct (filledWriters_multipart i item Hmp) as (_ & Hbody & Htype).
  eexists. split; [apply (formRequest_emits _ _ _ _ Haction Hresolves)|].
  cbn [NavigationRequest.Body NavigationRequest.Headers].
  split; [exact Hbody|].
  split; [intros k v; apply formFields_In|].
  split; [apply formFields_NoDup|].
  split; [|split].
  - intros Hpost. rewrite Hpost. simpl. now rewrite lookup_singleton_eq, Htype.
  - intros Hother. apply String.eqb_neq in Hother. rewrite Hother.
    destruct (String.eqb (formMethod item) "GET"); apply lookup_empty.
  - intros Hbare. unfold boundaryParam. now rewrite Hbare.
Qed.

(** C6 (as the code has it). A form element without an [action] attribute
    is not selected and, were the closure run on it, would emit nothing.  A
    form whose action resolves and that has no input yields exactly one
    request; its encoded query values are empty, so for [GET] the URL ends
    in the bare [?], and for a form that is not multipart the body is
    empty; for a multipart form the body is the closing delimiter line of
    the multipart message, which is not empty. *)
Theorem C6_form_edge_cases resp i (n : html.Node) :
  (goquery.Attr [n] "action" = None ->
   goquery.matches (goquery.TagAttr "form" "action") n = false
   /\ formRequest resp i [n] = [])
  /\ (forall href,
        goquery.Attr [n] "action" = Some href ->
        AbsoluteURL resp href <> EmptyString ->
        goquery.Find [n] (goquery.Tag "input") = [] ->
        FormInputFillSuggestions [] DefaultFormFillData = ∅ ->
        exists req,
          formRequest resp i [n] = [req]
          /\ url.Encode (queryValuesWriter (filledWriters i [n])) = EmptyString
          /\ (formMethod [n] = "GET" ->
              NavigationRequest.URL req = AbsoluteURL resp href +:+ "?")
          /\ (isMultipartForm [n] = false -> NavigationRequest.Body req = EmptyString)
          /\ (isMultipartForm [n] = true ->
              NavigationRequest.Body req
              = CRLF +:+ "--" +:+ randomBoundary i +:+ "--" +:+ CRLF)).
Proof.
  split.
  - intros Hnone. split.
    + destruct n as [tag attrs cs| |]; try reflexivity.
      simpl in *. rewrite (getAttributeValue_None _ _ Hnone). apply andb_false_r.
    + unfold formRequest. now rewrite Hnone.
  - intros href Haction Hresolves Hinputs Hfill.
    assert (Hempty : formDataMap [n] = ∅).
    { unfold formDataMap. now rewrite (formInputsOf_none _ Hinputs). }
    pose proof (filledWriters_no_fields i [n] Hempty) as Hwriters.
    eexists. split; [apply (formRequest_emits _ _ _ _ Haction Hresolves)|].
    cbn [NavigationRequest.Body NavigationRequest.URL].
    unfold formBody. rewrite Hwriters.
    cbn [queryValuesWriter multipartWriter].
    split; [reflexivity|]. split; [|split].
    + intros Hget. rewrite Hget. reflexivity.
    + intros Hmp. now rewrite Hmp.
    + intros Hmp. now rewrite Hmp.
Qed.

(** C10 (as the code has it). For a form whose method is [GET] and whose
    action resolves, the URL of the emitted request is the resolved action
    URL, then a [?], then the encoded query values, whatever the action URL
    looks like and whatever the values are: with no values the URL ends in
    [?].  The query values are the submitted fields of a form that is not
    multipart; for a multipart form they are empty, the fields having gone
    to the multipart body. *)
Theorem C10_get_url resp i item href :
  formMethod item = "GET" ->
  goquery.Attr item "action" = Some href ->
  AbsoluteURL resp href <> EmptyString ->
  exists req,
    formRequest resp i item = [req]
    /\ NavigationRequest.URL req =
         AbsoluteURL resp href +:+ "?"
           +:+ url.Encode (queryValuesWriter (filledWriters i item))
    /\ (isMultipartForm item = false ->
        forall k, queryValuesWriter (filledWriters i item) !! k
                  = queryValueOf (formDataMap item) k)
    /\ (isMultipartForm item = true ->
        NavigationRequest.URL req = AbsoluteURL resp href +:+ "?")
    /\ (formDataMap item = ∅ ->
        NavigationRequest.URL req = AbsoluteURL resp href +:+ "?").
Proof.
  intros Hget Haction Hresolves.
  eexists. split; [apply (formRequest_emits _ _ _ _ Haction Hresolves)|].
  rewrite Hget. cbn [NavigationRequest.URL String.eqb Ascii.eqb Bool.eqb].
  split; [reflexivity|]. split; [|split].
  - intros Hmp. now apply filledWriters_urlencoded.
  - intros Hmp. destruct (filledWriters_multipart i item Hmp) as (-> & _). reflexivity.
  - intros Hempty. now rewrite (filledWriters_no_fields i item Hempty).
Qed.

End FormBoundaries.

(* ------------------------------------------------------------------ *)
(** ** The properties on concrete pages *)

Example searchForm_request :
  bodyFormTagParser (exPage 3 [searchForm]) =
    [ {| NavigationRequest.Method := "GET";
         NavigationRequest.URL := "http://example.com/search?q=crawler";
         NavigationRequest.Body := "q=crawler";
         NavigationRequest.Depth := 3;
         NavigationRequest.Headers := ∅;
         NavigationRequest.Source := "form" |} ].
Proof. vm_compute. reflexivity. Qed.

(** *** C1: a form without [method] *)

(** The body of the request is not discarded: it holds the encoded fields,
    and so does the query string. *)
Lemma C1_body_kept :
  goquery.Attr [searchForm] "method" = None
  /\ bodyFormTagParser (exPage 0 [searchForm]) =
       [ {| NavigationRequest.Method := "GET";
            NavigationRequest.URL := "http://example.com/search?q=crawler";
            NavigationRequest.Body := "q=crawler";
            NavigationRequest.Depth := 0;
            NavigationRequest.Headers := ∅;
            NavigationRequest.Source := "form" |} ]
  /\ "q=crawler" <> EmptyString.
Proof. split; [reflexivity|]. split; [vm_compute; reflexivity | discriminate]. Qed.

Lemma C1_method_omitted_witness :
  exists req,
    formRequest (exPage 0 [searchForm]) 0 [searchForm] = [req]
    /\ NavigationRequest.Method req = "GET"
    /\ NavigationRequest.URL req =
         AbsoluteURL (exPage 0 [searchForm]) "http://example.com/search" +:+ "?"
           +:+ url.Encode (queryValuesWriter (filledWriters 0 [searchForm]))
    /\ NavigationRequest.Headers req = ∅
    /\ NavigationRequest.Body req = formBody 0 [searchForm]
    /\ (isMultipartForm [searchForm] = false ->
        NavigationRequest.Body req = url.Encode (queryValuesWriter (filledWriters 0 [searchForm]))
        /\ forall k, queryValuesWriter (filledWriters 0 [searchForm]) !! k
                     = queryValueOf (formDataMap [searchForm]) k).
Proof.
  apply (C1_method_omitted (exPage 0 [searchForm]) 0%nat [searchForm]
                           "http://example.com/search");
    [reflexivity | reflexivity | vm_compute; discriminate].
Defined.

(** *** C2: the depth of a form request *)

(** A form found in a response of depth 3 yields a request of depth 3, not
    4; the pipeline emits it. *)
Lemma C2_depth_not_incremented :
  exists req,
    In req (parseResponse (exPage 3 [searchForm]))
    /\ NavigationRequest.Source req = "form"
    /\ NavigationResponse.Depth (exPage 3 [searchForm]) = 3
    /\ NavigationRequest.Depth req = 3
    /\ NavigationRequest.Depth req <> 3 + 1.
Proof.
  eexists. split; [vm_compute; left; reflexivity|].
  split; [reflexivity|]. split; [reflexivity|]. split; [reflexivity|]. discriminate.
Qed.

Lemma C2_depth_per_hop_witness :
  NavigationRequest.Depth searchRequest = NavigationResponse.Depth (exPage 3 [searchForm])
  /\ NavigationResponse.rawDepth (makeRequest exCrawler exTransport searchRequest).1
     = NavigationResponse.Depth (exPage 3 [searchForm]) + 1
  /\ (forall next,
        NavigationResponse.populated (makeRequest exCrawler exTransport searchRequest).1
        = Some next ->
        NavigationResponse.Depth next = NavigationResponse.Depth (exPage 3 [searchForm]) + 1).
Proof.
  apply (C2_depth_per_hop (exPage 3 [searchForm]) searchRequest exCrawler exTransport).
  - vm_compute. left. reflexivity.
  - simpl. lia.
Defined.

(** The transport answers with a document: the next response is populated,
    at depth 4. *)
Example next_response_depth :
  NavigationResponse.Depth
    <$> NavigationResponse.populated (makeRequest exCrawler exTransport searchRequest).1
  = Some 4.
Proof. vm_compute. reflexivity. Qed.

(** *** C3: a method other than [GET] and [POST] *)

(** A [put] form: the body carries the fields, no header is set. *)
Lemma C3_put_has_no_content_type :
  formMethod [putForm] = "PUT"
  /\ exists req,
       bodyFormTagParser (exPage 0 [putForm]) = [req]
       /\ NavigationRequest.Method req = "PUT"
       /\ NavigationRequest.Body req = "q=crawler"
       /\ NavigationRequest.Headers req !! "Content-Type" = None.
Proof.
  split; [reflexivity|]. eexists. split; [vm_compute; reflexivity|].
  repeat split.
Qed.

Lemma C3_non_get_payload_witness :
  exists req,
    formRequest (exPage 0 [postUploadForm]) 0 [postUploadForm] = [req]
    /\ NavigationRequest.URL req
       = AbsoluteURL (exPage 0 [postUploadForm]) "http://example.com/upload"
    /\ NavigationRequest.Body req = formBody 0 [postUploadForm]
    /\ (formMethod [postUploadForm] = "POST" ->
        NavigationRequest.Headers req
        = {[ "Content-Type" := formContentType 0 [postUploadForm] ]})
    /\ (formMethod [postUploadForm] <> "POST" -> NavigationRequest.Headers req = ∅)
    /\ (isMultipartForm [postUploadForm] = true ->
        formBody 0 [postUploadForm]
        = multipartMessage (randomBoundary 0) (formFields 0 [postUploadForm])
        /\ (forall k v,
               In (k, v) (formFields 0 [postUploadForm]) <->
               formDataMap [postUploadForm] !! k = Some v
               /\ k <> EmptyString /\ v <> EmptyString)
        /\ formContentType 0 [postUploadForm] =
             "multipart/form-data; boundary=" +:+ boundaryParam (randomBoundary 0))
    /\ (isMultipartForm [postUploadForm] = false ->
        formBody 0 [postUploadForm]
        = url.Encode (queryValuesWriter (filledWriters 0 [postUploadForm]))
        /\ (forall k, queryValuesWriter (filledWriters 0 [postUploadForm]) !! k
                      = queryValueOf (formDataMap [postUploadForm]) k)
        /\ formContentType 0 [postUploadForm] = formEncType [postUploadForm]).
Proof.
  apply (C3_non_get_payload (exPage 0 [postUploadForm]) 0%nat [postUploadForm]
                            "http://example.com/upload");
    [vm_compute; discriminate | reflexivity | vm_compute; discriminate].
Defined.

(** *** C4: a multipart form that is not [POST] *)

(** The multipart form without [method]: the body is the multipart message,
    and the request has no [Content-Type] header to name its boundary. *)
Lemma C4_multipart_get_has_no_content_type :
  isMultipartForm [uploadForm] = true
  /\ exists req,
       bodyFormTagParser (exPage 0 [uploadForm]) = [req]
       /\ NavigationRequest.Method req = "GET"
       /\ NavigationRequest.Body req = multipartMessage exBoundary [("q", "crawler")]
       /\ NavigationRequest.Headers req !! "Content-Type" = None.
Proof.
  split; [reflexivity|]. eexists. split; [vm_compute; reflexivity|].
  split; [reflexivity|]. split; [vm_compute; reflexivity | reflexivity].
Qed.

Lemma C4_multipart_boundary_witness :
  exists req,
    formRequest (exPage 0 [postUploadForm]) 0 [postUploadForm] = [req]
    /\ NavigationRequest.Body req
       = multipartMessage (randomBoundary 0) (formFields 0 [postUploadForm])
    /\ (forall k v,
           In (k, v) (formFields 0 [postUploadForm]) <->
           formDataMap [postUploadForm] !! k = Some v
           /\ k <> EmptyString /\ v <> EmptyString)
    /\ NoDup ((formFields 0 [postUploadForm]).*1)
    /\ (formMethod [postUploadForm] = "POST" ->
        NavigationRequest.Headers req !! "Content-Type"
        = Some ("multipart/form-data; boundary=" +:+ boundaryParam (randomBoundary 0)))
    /\ (formMethod [postUploadForm] <> "POST" ->
        NavigationRequest.Headers req !! "Content-Type" = None)
    /\ (strings.ContainsAny (randomBoundary 0) multipart.tspecials = false ->
        boundaryParam (randomBoundary 0) = randomBoundary 0).
Proof.
  apply (C4_multipart_boundary (exPage 0 [postUploadForm]) 0%nat [postUploadForm]
                               "http://example.com/upload");
    [reflexivity | reflexivity | vm_compute; discriminate].
Defined.

Example postUploadForm_request :
  bodyFormTagParser (exPage 0 [postUploadForm]) =
    [ {| NavigationRequest.Method := "POST";
         NavigationRequest.URL := "http://example.com/upload";
         NavigationRequest.Body := multipartMessage exBoundary [("q", "crawler")];
         NavigationRequest.Depth := 0;
         NavigationRequest.Headers :=
           {[ "Content-Type" := "multipart/form-data; boundary=" +:+ exBoundary ]};
         NavigationRequest.Source := "form" |} ].
Proof. vm_compute. reflexivity. Qed.

(** In the part header the line feed of the field name is [%0A] and the
    double quote has a backslash before it. *)
Example lineFeedForm_body :
  map NavigationRequest.Body (bodyFormTagParser (exPage 0 [lineFeedForm])) =
    [ "--" +:+ exBoundary +:+ CRLF
        +:+ "Content-Disposition: form-data; name="
        +:+ String DQUOTE ("a%0Ab" +:+ String BACKSLASH (String DQUOTE ("c" +:+ String DQUOTE CRLF)))
        +:+ CRLF +:+ "v"
        +:+ CRLF +:+ "--" +:+ exBoundary +:+ "--" +:+ CRLF ].
Proof. vm_compute. reflexivity. Qed.

(** *** C6: forms without action, forms without inputs *)

(** A multipart [post] form without inputs: one request, and its body is the
    closing delimiter line, not the empty string. *)
Lemma C6_empty_multipart_body :
  goquery.Find [emptyUploadForm] (goquery.Tag "input") = []
  /\ exists req,
       bodyFormTagParser (exPage 0 [emptyUploadForm]) = [req]
       /\ NavigationRequest.Method req = "POST"
       /\ NavigationRequest.URL req = "http://example.com/upload"
       /\ NavigationRequest.Body req = CRLF +:+ "--" +:+ exBoundary +:+ "--" +:+ CRLF
       /\ isEmpty (NavigationRequest.Body req) = false.
Proof.
  split; [reflexivity|]. eexists. split; [vm_compute; reflexivity|].
  repeat split.
Qed.

Lemma C6_form_edge_cases_witness :
  exists req,
    formRequest (exPage 0 [emptyQueryForm]) 0 [emptyQueryForm] = [req]
    /\ url.Encode (queryValuesWriter (filledWriters 0 [emptyQueryForm])) = EmptyString
    /\ (formMethod [emptyQueryForm] = "GET" ->
        NavigationRequest.URL req
        = AbsoluteURL (exPage 0 [emptyQueryForm]) "http://example.com/list?page=2" +:+ "?")
    /\ (isMultipartForm [emptyQueryForm] = false -> NavigationRequest.Body req = EmptyString)
    /\ (isMultipartForm [emptyQueryForm] = true ->
        NavigationRequest.Body req = CRLF +:+ "--" +:+ randomBoundary 0 +:+ "--" +:+ CRLF).
Proof.
  apply (proj2 (C6_form_edge_cases (exPage 0 [emptyQueryForm]) 0%nat emptyQueryForm)
               "http://example.com/list?page=2");
    [reflexivity | vm_compute; discriminate | reflexivity | reflexivity].
Defined.

(** A form without [action], next to one with: only the second is heard of. *)
Example form_without_action :
  bodyFormTagParser
    (exPage 0 [html.ElementNode "form" [attr "method" "post"] [exInput "q" "crawler"];
               emptyQueryForm]) =
    [ {| NavigationRequest.Method := "GET";
         NavigationRequest.URL := "http://example.com/list?page=2?";
         NavigationRequest.Body := EmptyString;
         NavigationRequest.Depth := 0;
         NavigationRequest.Headers := ∅;
         NavigationRequest.Source := "form" |} ].
Proof. vm_compute. reflexivity. Qed.

(** *** C10: the URL of a [GET] form *)

(** The multipart form without [method] submits the field [q], yet the URL
    ends in the bare [?]: the field is in the multipart body only. *)
Lemma C10_multipart_get_query_empty :
  formMethod [uploadForm] = "GET"
  /\ formFields 0 [uploadForm] = [("q", "crawler")]
  /\ exists req,
       bodyFormTagParser (exPage 0 [uploadForm]) = [req]
       /\ NavigationRequest.URL req = "http://example.com/upload?"
       /\ NavigationRequest.URL req <> "http://example.com/upload" +:+ "?" +:+ "q=crawler".
Proof.
  split; [reflexivity|]. split; [vm_compute; reflexivity|].
  eexists. split; [vm_compute; reflexivity|].
  split; [reflexivity | vm_compute; discriminate].
Qed.

Lemma C10_get_url_witness :
  exists req,
    formRequest (exPage 0 [emptyQueryForm]) 0 [emptyQueryForm] = [req]
    /\ NavigationRequest.URL req =
         AbsoluteURL (exPage 0 [emptyQueryForm]) "http://example.com/list?page=2" +:+ "?"
           +:+ url.Encode (queryValuesWriter (filledWriters 0 [emptyQueryForm]))
    /\ (isMultipartForm [emptyQueryForm] = false ->
        forall k, queryValuesWriter (filledWriters 0 [emptyQueryForm]) !! k
                  = queryValueOf (formDataMap [emptyQueryForm]) k)
    /\ (isMultipartForm [emptyQueryForm] = true ->
        NavigationRequest.URL req
        = AbsoluteURL (exPage 0 [emptyQueryForm]) "http://example.com/list?page=2" +:+ "?")
    /\ (formDataMap [emptyQueryForm] = ∅ ->
        NavigationRequest.URL req
        = AbsoluteURL (exPage 0 [emptyQueryForm]) "http://example.com/list?page=2" +:+ "?").
Proof.
  apply (C10_get_url (exPage 0 [emptyQueryForm]) 0%nat [emptyQueryForm]
                     "http://example.com/list?page=2");
    [reflexivity | reflexivity | vm_compute; discriminate].
Defined.

Lemma C7_js_parsers_disabled_witness :
  scriptContentRegexParser (jsResponse false) = []
  /\ scriptJSFileRegexParser (jsResponse false) = [].
Proof. apply (C7_js_parsers_disabled (jsResponse false)). reflexivity. Defined.

Example js_parsers_enabled :
  map NavigationRequest.URL (scriptContentRegexParser (jsResponse true))
  = ["fetch('/api/users')"]
  /\ map NavigationRequest.Source (scriptJSFileRegexParser (jsResponse true)) = ["js-file"].
Proof. split; vm_compute; reflexivity. Qed.

Lemma exNavigation_Source path source resp :
  NavigationRequest.Source (NewNavigationRequestURL path source resp) = source.
Proof. reflexivity. Qed.

(** A JavaScript file with nothing in it: the parser applies and emits
    nothing. *)
Lemma C8_javascript_without_candidates :
  ScrapeJSResponses emptyJsResponse = true
  /\ strings.HasSuffix
       (url.Path (http.Request.URL (http.Response.Request
                                      (NavigationResponse.Resp emptyJsResponse))))
       ".js" = true
  /\ strings.Contains (http.Get (Header emptyJsResponse) "Content-Type") "/javascript" = true
  /\ ExtractRelativeEndpoints (NavigationResponse.Body emptyJsResponse) = []
  /\ scriptJSFileRegexParser emptyJsResponse = [].
Proof. repeat split; vm_compute; reflexivity. Qed.

Lemma C8_js_file_parser_witness :
  let resp := jsResponse true in
  let path := url.Path (http.Request.URL (http.Response.Request (NavigationResponse.Resp resp))) in
  let contentType := http.Get (Header resp) "Content-Type" in
  let endpoints := ExtractRelativeEndpoints (NavigationResponse.Body resp) in
  let javascript :=
    (exists stem, path = stem +:+ ".js")
    \/ (exists before after, contentType = before +:+ "/javascript" +:+ after) in
  (~ javascript -> scriptJSFileRegexParser resp = [])
  /\ (javascript ->
      scriptJSFileRegexParser resp =
        map (fun item => NewNavigationRequestURL item "js-file" resp) endpoints
      /\ length (scriptJSFileRegexParser resp) = length endpoints)
  /\ (forall req, In req (scriptJSFileRegexParser resp) ->
                  javascript /\ NavigationRequest.Source req = "js-file")
  /\ (scriptJSFileRegexParser resp <> [] <-> javascript /\ endpoints <> []).
Proof.
  apply (C8_js_file_parser exNavigation_Source (jsResponse true)). reflexivity.
Defined.

(** On [jsResponse] the parser applies and finds the endpoint. *)
Example jsResponse_js_file_request :
  map NavigationRequest.URL (scriptJSFileRegexParser (jsResponse true)) = ["/api/users"]
  /\ (exists stem,
        url.Path (http.Request.URL (http.Response.Request
                                      (NavigationResponse.Resp (jsResponse true))))
        = stem +:+ ".js").
Proof. split; [vm_compute; reflexivity | exists "/static/app"; reflexivity]. Qed.

(** The button parser would emit the [formaction]; the pipeline emits the
    anchor only. *)
Example buttonPage_requests :
  map NavigationRequest.URL (bodyButtonFormactionTagParser buttonPage)
  = ["http://example.com/delete"]
  /\ map NavigationRequest.Source (bodyButtonFormactionTagParser buttonPage) = ["button"]
  /\ parseResponse buttonPage = [aboutRequest].
Proof. repeat split; vm_compute; reflexivity. Qed.

Lemma C9_no_button_source_witness :
  In aboutRequest (parseResponse buttonPage)
  /\ NavigationRequest.Source aboutRequest <> "button".
Proof.
  assert (Hin : In aboutRequest (parseResponse buttonPage))
    by (vm_compute; left; reflexivity).
  split; [exact Hin|].
  exact (C9_no_button_source exNavigation_Source buttonPage aboutRequest Hin).
Defined.

(* ------------------------------------------------------------------ *)
(** ** Further properties of the parsers *)

Section Selection.

Lemma MatchAll_matches (s : goquery.Selector) (n x : html.Node) :
  In x (goquery.MatchAll s n) -> goquery.matches s x = true.
Proof.
  revert x. induction n as [tag attrs cs IH| |] using Node_forall_ind; intros x Hin.
  - simpl in Hin. apply in_app_or in Hin as [Hin|Hin].
    + destruct (String.eqb tag (goquery.selTag s) && goquery.attrMatches s attrs) eqn:Hm;
        [|contradiction].
      destruct Hin as [<-|[]]. exact Hm.
    + apply in_flat_map in Hin as (c & Hc & Hin).
      rewrite List.Forall_forall in IH. exact (IH c Hc x Hin).
  - simpl in Hin. destruct Hin as [].
  - simpl in Hin. destruct Hin as [].
Qed.

(** [Find] selects only nodes that match the selector. *)
Lemma Find_matches (sel : goquery.Selection) (s : goquery.Selector) (x : html.Node) :
  In x (goquery.Find sel s) -> goquery.matches s x = true.
Proof.
  unfold goquery.Find. intros Hin.
  apply in_flat_map in Hin as (n & _ & Hin).
  apply in_flat_map in Hin as (c & _ & Hin).
  exact (MatchAll_matches s c x Hin).
Qed.

Lemma existsb_getAttributeValue attrName attrs :
  existsb (fun a => String.eqb (html.Key a) attrName) attrs = true ->
  exists v, goquery.getAttributeValue attrName attrs = Some v.
Proof.
  induction attrs as [|a attrs IH]; simpl; [discriminate|].
  destruct (String.eqb (html.Key a) attrName); [eauto|exact IH].
Qed.

(** A node selected by [tag[attr]] has the attribute. *)
Lemma TagAttr_has_attr tag attrName (n : html.Node) :
  goquery.matches (goquery.TagAttr tag attrName) n = true ->
  exists v, goquery.Attr [n] attrName = Some v.
Proof.
  destruct n as [t attrs cs| |]; simpl; try discriminate.
  intros Hm. apply andb_true_iff in Hm as [_ Hm].
  now apply existsb_getAttributeValue.
Qed.

Lemma matches_tag (s : goquery.Selector) (n : html.Node) :
  goquery.matches s n = true ->
  exists attrs cs, n = html.ElementNode (goquery.selTag s) attrs cs.
Proof.
  destruct n as [t attrs cs| |]; simpl; try discriminate.
  intros Hm. apply andb_true_iff in Hm as [Ht _].
  apply String.eqb_eq in Ht as ->. eauto.
Qed.

(** When the closure emits one request on the nodes [p] holds of and none
    on the others, [Each] emits as many requests as [p] holds of nodes. *)
Lemma length_EachFrom {A} (f : nat -> goquery.Selection -> list A) (p : html.Node -> bool)
      (sel : goquery.Selection) :
  (forall i n, In n sel -> length (f i [n]) = if p n then 1%nat else 0%nat) ->
  forall i, length (goquery.EachFrom i sel f) = length (List.filter p sel).
Proof.
  induction sel as [|n sel IH]; intros Hf i; [reflexivity|].
  simpl. rewrite length_app, (Hf i n) by (now left).
  rewrite IH by (intros j m Hm; apply Hf; now right).
  now destruct (p n).
Qed.

End Selection.

Section FormRequests.
Context `{Navigation} `{Utils} `{Runtime}.

Implicit Types (resp : NavigationResponse.t) (item : goquery.Selection).

(** X1. The form parser emits exactly one request for every [form[action]]
    element whose action resolves and none for the others: every selected
    form has its [action] attribute (the missing-attribute return of the
    closure is never taken on a selected form), so the number of requests is
    the number of selected forms whose action resolves. *)
Theorem form_parser_one_request_per_resolving_form resp :
  (forall n, In n (ReaderFind resp (goquery.TagAttr "form" "action")) ->
             exists attrs cs href,
               n = html.ElementNode "form" attrs cs
               /\ goquery.Attr [n] "action" = Some href)
  /\ length (bodyFormTagParser resp)
     = length (List.filter (actionResolves resp)
                           (ReaderFind resp (goquery.TagAttr "form" "action"))).
Proof.
  assert (Hsel : forall n, In n (ReaderFind resp (goquery.TagAttr "form" "action")) ->
                           exists attrs cs href,
                             n = html.ElementNode "form" attrs cs
                             /\ goquery.Attr [n] "action" = Some href).
  { intros n Hn. apply Find_matches in Hn.
    destruct (matches_tag _ _ Hn) as (attrs & cs & ->).
    destruct (TagAttr_has_attr _ _ _ Hn) as (href & Hhref). eauto. }
  split; [exact Hsel|].
  unfold bodyFormTagParser, goquery.Each. apply length_EachFrom.
  intros i n Hn. destruct (Hsel n Hn) as (attrs & cs & href & _ & Haction).
  unfold actionResolves. rewrite Haction. simpl default.
  destruct (isEmpty (AbsoluteURL resp href)) eqn:Hres.
  - unfold formRequest. now rewrite Haction, Hres.
  - apply isEmpty_false in Hres. now rewrite (formRequest_emits _ _ _ _ Haction Hres).
Qed.

(** X2. Every request the form parser emits has source [form], a URL that
    is not empty, the depth of the response, and no header unless its method
    is [POST], in which case its only header is [Content-Type]; and a [GET]
    request has no header at all. *)
Theorem form_request_invariants resp req :
  In req (bodyFormTagParser resp) ->
  NavigationRequest.Source req = "form"
  /\ NavigationRequest.URL req <> EmptyString
  /\ NavigationRequest.Depth req = NavigationResponse.Depth resp
  /\ (NavigationRequest.Headers req = ∅
      \/ NavigationRequest.Method req = "POST"
         /\ exists contentType,
              NavigationRequest.Headers req = {[ "Content-Type" := contentType ]})
  /\ (NavigationRequest.Method req <> "POST" -> NavigationRequest.Headers req = ∅).
Proof.
  intros Hin. apply bodyFormTagParser_In in Hin as (i & n & _ & Hin).
  unfold formRequest in Hin.
  destruct (goquery.Attr [n] "action") as [href|] eqn:Haction; [|contradiction].
  destruct (isEmpty (AbsoluteURL resp href)) eqn:Hres; [contradiction|].
  apply isEmpty_false in Hres.
  assert (Hq : forall q, AbsoluteURL resp href +:+ q <> EmptyString).
  { intros q. destruct (AbsoluteURL resp href); [congruence|discriminate]. }
  destruct Hin as [<-|[]].
  destruct (String.eqb (formMethod [n]) "GET") eqn:Hget.
  - apply String.eqb_eq in Hget. simpl. rewrite Hget.
    repeat split; auto.
  - destruct (String.eqb (formMethod [n]) "POST") eqn:Hpost; simpl.
    + apply String.eqb_eq in Hpost.
      split; [reflexivity|]. split; [exact Hres|]. split; [reflexivity|].
      split; [right; eauto|]. intros Hne. now elim Hne.
    + repeat split; auto.
Qed.

End FormRequests.

Lemma form_request_invariants_witness :
  NavigationRequest.Source searchRequest = "form"
  /\ NavigationRequest.URL searchRequest <> EmptyString
  /\ NavigationRequest.Depth searchRequest = NavigationResponse.Depth (exPage 3 [searchForm])
  /\ (NavigationRequest.Headers searchRequest = ∅
      \/ NavigationRequest.Method searchRequest = "POST"
         /\ exists contentType,
              NavigationRequest.Headers searchRequest = {[ "Content-Type" := contentType ]})
  /\ (NavigationRequest.Method searchRequest <> "POST" ->
      NavigationRequest.Headers searchRequest = ∅).
Proof.
  apply (form_request_invariants (exPage 3 [searchForm]) searchRequest).
  vm_compute. left. reflexivity.
Defined.

Section FormFields.
Context `{Navigation} `{Utils} `{Runtime}.

Implicit Types (resp : NavigationResponse.t) (item : goquery.Selection).

(** X3. The loop over the data map writes every entry whose key and value
    are both non-empty exactly once, and no other entry, into the writer the
    enctype selects, whatever the order in which the map is visited.  For a
    multipart form the query values stay empty and the body is the multipart
    message of the submitted fields, which are those entries, each once.
    For any other form there is no multipart writer, the query values hold
    under each key exactly the one value of the submitted entry with that
    key (nothing under the key of an entry left out), and the body is their
    encoding. *)
Theorem form_fields_written_once i item :
  (isMultipartForm item = true ->
   queryValuesWriter (filledWriters i item) = ∅
   /\ formBody i item = multipartMessage (randomBoundary i) (formFields i item)
   /\ (forall k v,
          In (k, v) (formFields i item) <->
          formDataMap item !! k = Some v /\ k <> EmptyString /\ v <> EmptyString)
   /\ NoDup ((formFields i item).*1))
  /\ (isMultipartForm item = false ->
      multipartWriter (filledWriters i item) = None
      /\ formBody i item = url.Encode (queryValuesWriter (filledWriters i item))
      /\ (forall k v,
             queryValuesWriter (filledWriters i item) !! k = Some [v] <->
             formDataMap item !! k = Some v /\ k <> EmptyString /\ v <> EmptyString)
      /\ (forall k,
             queryValuesWriter (filledWriters i item) !! k = None <->
             forall v, formDataMap item !! k = Some v -> k = EmptyString \/ v = EmptyString)
      /\ (forall k vs,
             queryValuesWriter (filledWriters i item) !! k = Some vs ->
             exists v, vs = [v])).
Proof.
  split.
  - intros Hmp. destruct (filledWriters_multipart i item Hmp) as (Hqv & Hbody & _).
    split; [exact Hqv|]. split; [exact Hbody|].
    split; [intros k v; apply formFields_In | apply formFields_NoDup].
  - intros Hmp. destruct (filledWriters_urlencoded i item Hmp) as (Hbody & _ & Hvalues).
    assert (Hwriter : multipartWriter (filledWriters i item) = None).
    { unfold filledWriters, newFormWriters. rewrite Hmp, writeEntry_urlencoded.
      reflexivity. }
    split; [exact Hwriter|]. split; [exact Hbody|].
    split; [|split].
    + intros k v. rewrite Hvalues. unfold queryValueOf.
      destruct (formDataMap item !! k) as [v'|].
      * destruct (submitted (k, v')) eqn:Hsub.
        -- apply submitted_true in Hsub as [Hk Hv']. split.
           ++ intros [= <-]. auto.
           ++ intros ([= <-] & _ & _). reflexivity.
        -- split; [discriminate|]. intros ([= <-] & Hk & Hv).
           assert (Htrue : submitted (k, v') = true) by (apply submitted_true; auto).
           congruence.
      * split; [discriminate|]. intros (Hdisc & _). discriminate Hdisc.
    + intros k. rewrite Hvalues. unfold queryValueOf.
      destruct (formDataMap item !! k) as [v'|].
      * destruct (submitted (k, v')) eqn:Hsub.
        -- apply submitted_true in Hsub as [Hk Hv']. split; [discriminate|].
           intros Hall. destruct (Hall v' eq_refl); contradiction.
        -- split; [|reflexivity]. intros _ v [= <-].
           destruct (isEmpty k) eqn:Hk.
           ++ left. destruct k; [reflexivity | discriminate Hk].
           ++ right. unfold submitted in Hsub. simpl in Hsub. rewrite Hk in Hsub.
              simpl in Hsub. apply negb_false_iff in Hsub.
              destruct v'; [reflexivity | discriminate Hsub].
      * split; [intros _ v Hdisc; discriminate Hdisc | reflexivity].
    + intros k vs. rewrite Hvalues. unfold queryValueOf.
      destruct (formDataMap item !! k) as [v'|]; [|discriminate].
      destruct (submitted (k, v')); [|discriminate].
      intros [= <-]. eauto.
Qed.

End FormFields.

Section OrderIndependence.
Context `{Navigation} `{Utils}.
Variables R1 R2 : Runtime.

Implicit Types (resp : NavigationResponse.t) (item : goquery.Selection).

Lemma formMethod_ascii item :
  strings.isASCII (default EmptyString (goquery.Attr item "method")) = true ->
  @formMethod R1 item = @formMethod R2 item.
Proof.
  intros Hascii. unfold formMethod.
  destruct (isEmpty (default EmptyString (goquery.Attr item "method"))).
  - now rewrite !ToUpper_ascii.
  - now rewrite !ToUpper_ascii.
Qed.

(** X4. For a form that is not multipart and whose [method] attribute is
    ASCII, the emitted request does not depend on the order in which [range]
    visits the data map, nor on the index of the form: two runs of the
    runtime give the same request. *)
Theorem form_request_order_independent resp i j item :
  isMultipartForm item = false ->
  strings.isASCII (default EmptyString (goquery.Attr item "method")) = true ->
  @formRequest _ _ R1 resp i item = @formRequest _ _ R2 resp j item.
Proof.
  intros Hmp Hascii.
  destruct (@filledWriters_urlencoded _ R1 i item Hmp) as (Hbody1 & Htype1 & Hqv1).
  destruct (@filledWriters_urlencoded _ R2 j item Hmp) as (Hbody2 & Htype2 & Hqv2).
  assert (Hqv : queryValuesWriter (@filledWriters _ R1 i item)
                = queryValuesWriter (@filledWriters _ R2 j item)).
  { apply map_eq. intros k. now rewrite Hqv1, Hqv2. }
  unfold formRequest.
  rewrite Hbody1, Htype1, Hbody2, Htype2, Hqv, (formMethod_ascii item Hascii).
  reflexivity.
Qed.

End OrderIndependence.

Lemma form_request_order_independent_witness :
  @formRequest _ _ exRuntime (exPage 0 [twoFieldForm]) 0 [twoFieldForm]
  = @formRequest _ _ exRuntimeRev (exPage 0 [twoFieldForm]) 5 [twoFieldForm].
Proof.
  apply (form_request_order_independent exRuntime exRuntimeRev
           (exPage 0 [twoFieldForm]) 0%nat 5%nat [twoFieldForm]); reflexivity.
Defined.

(** The two runs visit the fields in different orders; the query string is
    the same, the multipart bodies are not. *)
Example two_runs :
  @formFields _ exRuntime 0 [twoFieldForm] <> @formFields _ exRuntimeRev 0 [twoFieldForm]
  /\ map NavigationRequest.URL (@formRequest _ _ exRuntime (exPage 0 [twoFieldForm]) 0 [twoFieldForm])
     = ["http://example.com/search?lang=en&q=crawler"]
  /\ @formBody _ exRuntime 0 [twoFieldUploadForm]
     <> @formBody _ exRuntimeRev 0 [twoFieldUploadForm].
Proof.
  split; [vm_compute; discriminate|].
  split; [vm_compute; reflexivity | vm_compute; discriminate].
Qed.

Section TagParsers.
Context `{Navigation} `{Utils} `{Runtime}.

Implicit Types (resp : NavigationResponse.t) (req : NavigationRequest.t).

Lemma In_attrRequest resp attr source (n : html.Node) req :
  In req (attrRequest resp attr source [n]) <->
  exists v, goquery.Attr [n] attr = Some v /\ v <> EmptyString
            /\ req = NewNavigationRequestURL v source resp.
Proof.
  unfold attrRequest. destruct (goquery.Attr [n] attr) as [v|].
  - destruct (isEmpty v) eqn:Hv.
    + destruct v; [|discriminate Hv]. split; [contradiction|].
      intros (v' & [= <-] & Hne & _). now elim Hne.
    + apply isEmpty_false in Hv. split.
      * intros [<-|[]]. eauto.
      * intros (v' & [= <-] & _ & ->). now left.
  - split; [contradiction|]. now intros (v & Hv & _).
Qed.

(** The requests of a parser that reads one attribute of the selected
    elements. *)
Lemma In_attrParser resp (s : goquery.Selector) attr source req :
  In req (goquery.Each (ReaderFind resp s) (fun i item => attrRequest resp attr source item))
  <-> attrCandidate resp s attr source req.
Proof.
  rewrite In_Each. unfold attrCandidate. split.
  - intros (j & n & Hj & Hin). apply In_attrRequest in Hin as (v & Hv & Hne & ->).
    assert (Hn : In n (ReaderFind resp s)).
    { apply list_elem_of_In, list_elem_of_lookup. eauto. }
    exists n, v. repeat split; auto. exact (Find_matches _ _ _ Hn).
  - intros (n & v & Hn & _ & Hv & Hne & ->).
    apply list_elem_of_In, list_elem_of_lookup in Hn as (j & Hj).
    exists j, n. split; [exact Hj|]. apply In_attrRequest. eauto.
Qed.

(** X5. Each of the seven parsers that read one attribute emits exactly the
    requests built from the non-empty values of that attribute on the
    elements its selector matches: nothing is emitted for an empty value,
    nothing for an element of another tag or without the selector's
    attribute, and no such element is passed over. *)
Theorem tag_parsers_emit_nonempty_attributes resp req :
  (In req (bodyEmbedTagParser resp)
   <-> attrCandidate resp (goquery.TagAttr "embed" "src") "src" "embed" req)
  /\ (In req (bodyFrameTagParser resp)
      <-> attrCandidate resp (goquery.TagAttr "frame" "src") "src" "frame" req)
  /\ (In req (bodyIframeTagParser resp)
      <-> attrCandidate resp (goquery.TagAttr "iframe" "src") "src" "iframe" req)
  /\ (In req (bodyInputSrcTagParser resp)
      <-> attrCandidate resp (goquery.TagAttrEq "input" "type" "image") "src" "input" req)
  /\ (In req (bodyIsindexActionTagParser resp)
      <-> attrCandidate resp (goquery.TagAttr "isindex" "action") "action" "isindex" req)
  /\ (In req (bodyScriptSrcTagParser resp)
      <-> attrCandidate resp (goquery.TagAttr "script" "src") "src" "script" req)
  /\ (In req (bodyButtonFormactionTagParser resp)
      <-> attrCandidate resp (goquery.TagAttr "button" "formaction") "formaction" "button" req).
Proof. repeat split; apply In_attrParser. Qed.

(** X6. The anchor parser reads [href] and [ping] independently: it emits
    exactly the requests built from a non-empty [href] or a non-empty [ping]
    of an [a] element, an anchor with only one of them still giving that
    one, and never more than two requests per anchor. *)
Theorem anchor_parser_href_and_ping resp :
  (forall req,
      In req (bodyATagParser resp) <->
      attrCandidate resp (goquery.Tag "a") "href" "a" req
      \/ attrCandidate resp (goquery.Tag "a") "ping" "a" req)
  /\ (length (bodyATagParser resp) <= 2 * length (ReaderFind resp (goquery.Tag "a")))%nat.
Proof.
  split.
  - intros req. unfold bodyATagParser. rewrite In_Each. unfold attrCandidate. split.
    + intros (j & n & Hj & Hin).
      assert (Hn : In n (ReaderFind resp (goquery.Tag "a"))).
      { apply list_elem_of_In, list_elem_of_lookup. eauto. }
      pose proof (Find_matches _ _ _ Hn) as Hm.
      apply in_app_or in Hin as [Hin|Hin];
        apply In_attrRequest in Hin as (v & Hv & Hne & ->);
        [left|right]; exists n, v; auto.
    + intros [(n & v & Hn & _ & Hv & Hne & ->)|(n & v & Hn & _ & Hv & Hne & ->)];
        apply list_elem_of_In, list_elem_of_lookup in Hn as (j & Hj);
        exists j, n; (split; [exact Hj|]); apply in_or_app;
        [left|right]; apply In_attrRequest; eauto.
  - unfold bodyATagParser, goquery.Each.
    enough (Hall : forall sel i,
               (length (goquery.EachFrom i sel (fun (_ : nat) item =>
                          attrRequest resp "href" "a" item ++ attrRequest resp "ping" "a" item))
                <= 2 * length sel)%nat) by apply Hall.
    induction sel as [|n sel IH]; intros i;
      cbn [goquery.EachFrom length]; [lia|].
    rewrite !length_app. specialize (IH (S i)).
    assert (Hone : forall attr, (length (attrRequest resp attr "a" [n]) <= 1)%nat).
    { intros a. unfold attrRequest. destruct (goquery.Attr [n] a) as [v|]; [|simpl; lia].
      destruct (isEmpty v); simpl; lia. }
    pose proof (Hone "href"). pose proof (Hone "ping"). lia.
Qed.

(** X7. With JS scraping on, the script-content parser emits exactly the
    requests built from the endpoints extracted from the text of a [script]
    element, for the scripts whose text is not empty; a script without text
    is never handed to the extraction. *)
Theorem script_content_parser_enabled resp req :
  ScrapeJSResponses resp = true ->
  In req (scriptContentRegexParser resp) <->
  exists n endpoint,
    In n (ReaderFind resp (goquery.Tag "script"))
    /\ goquery.Text [n] <> EmptyString
    /\ In endpoint (ExtractRelativeEndpoints (goquery.Text [n]))
    /\ req = NewNavigationRequestURL endpoint "script-content" resp.
Proof.
  intros Hon. unfold scriptContentRegexParser. rewrite In_Each, Hon. simpl negb. split.
  - intros (j & n & Hj & Hin). cbv zeta iota in Hin.
    destruct (isEmpty (goquery.Text [n])) eqn:Htext; [contradiction|].
    apply isEmpty_false in Htext.
    apply in_map_iff in Hin as (endpoint & <- & Hin).
    exists n, endpoint. repeat split; auto.
    apply list_elem_of_In, list_elem_of_lookup. eauto.
  - intros (n & endpoint & Hn & Htext & Hin & ->).
    apply list_elem_of_In, list_elem_of_lookup in Hn as (j & Hj).
    exists j, n. split; [exact Hj|]. cbv zeta iota.
    apply isEmpty_false in Htext. rewrite Htext.
    apply in_map_iff. eauto.
Qed.

(** X8. A refresh directive in which no URL is found is dropped, in the
    header and in the document alike: the [Refresh] header parser emits one
    request exactly when the header is non-empty and parses to a non-empty
    URL, and the [meta] parser emits exactly the requests of the
    [meta[http-equiv='refresh']] elements whose [content] parses to a
    non-empty URL. *)
Theorem refresh_without_url_dropped resp :
  (headerRefreshParser resp =
     if isEmpty (http.Get (Header resp) "Refresh")
        || isEmpty (ParseRefreshTag (http.Get (Header resp) "Refresh"))
     then []
     else [NewNavigationRequestURL (ParseRefreshTag (http.Get (Header resp) "Refresh"))
                                   "refresh" resp])
  /\ (forall req,
         In req (bodyMetaContentTagParser resp) <->
         exists n content,
           In n (ReaderFind resp (goquery.TagAttrEq "meta" "http-equiv" "refresh"))
           /\ goquery.Attr [n] "content" = Some content
           /\ ParseRefreshTag content <> EmptyString
           /\ req = NewNavigationRequestURL (ParseRefreshTag content) "meta" resp).
Proof.
  split.
  - unfold headerRefreshParser. cbv zeta.
    destruct (isEmpty (http.Get (Header resp) "Refresh")); [reflexivity|].
    simpl orb. reflexivity.
  - intros req. unfold bodyMetaContentTagParser. rewrite In_Each. split.
    + intros (j & n & Hj & Hin).
      destruct (goquery.Attr [n] "content") as [content|] eqn:Hcontent; [|contradiction].
      cbv zeta in Hin.
      destruct (isEmpty (ParseRefreshTag content)) eqn:Hurl; [contradiction|].
      apply isEmpty_false in Hurl. destruct Hin as [<-|[]].
      exists n, content. repeat split; auto.
      apply list_elem_of_In, list_elem_of_lookup. eauto.
    + intros (n & content & Hn & Hcontent & Hurl & ->).
      apply list_elem_of_In, list_elem_of_lookup in Hn as (j & Hj).
      exists j, n. split; [exact Hj|]. rewrite Hcontent. cbv zeta.
      apply isEmpty_false in Hurl. rewrite Hurl. now left.
Qed.

End TagParsers.

Lemma script_content_parser_enabled_witness :
  In (NewNavigationRequestURL "fetch('/api/users')" "script-content" (jsResponse true))
     (scriptContentRegexParser (jsResponse true)) <->
  exists n endpoint,
    In n (ReaderFind (jsResponse true) (goquery.Tag "script"))
    /\ goquery.Text [n] <> EmptyString
    /\ In endpoint (ExtractRelativeEndpoints (goquery.Text [n]))
    /\ NewNavigationRequestURL "fetch('/api/users')" "script-content" (jsResponse true)
       = NewNavigationRequestURL endpoint "script-content" (jsResponse true).
Proof.
  apply (script_content_parser_enabled (jsResponse true)). reflexivity.
Defined.

(** The anchors of [linksPage]: [href] then [ping] of the first, nothing for
    the empty [href] of the second; the empty [src] of the [iframe] gives
    nothing, the [embed] one request. *)
Example linksPage_requests :
  map NavigationRequest.URL (parseResponse linksPage)
  = ["http://example.com/about"; "http://example.com/ping"; "http://example.com/movie.swf"]
  /\ map NavigationRequest.Source (parseResponse linksPage) = ["a"; "a"; "embed"].
Proof. split; vm_compute; reflexivity. Qed.

(* ------------------------------------------------------------------ *)
(** ** Further properties of [makeRequest] *)

Section MakeRequest.

Implicit Types (c : Crawler.t) (io : Transport) (request : NavigationRequest.t)
         (r : NavigationResponse.raw).

(** X9. When [makeRequest] returns no error and a response whose [Resp] is
    set, every stage of the fetch succeeded with a status other than 404,
    and the struct is complete: [Resp] is the transport's response, [Body]
    the bytes read, [Reader] the document made of exactly those bytes. *)
Theorem makeRequest_success_is_complete c io request r :
  makeRequest c io request = (r, None) ->
  NavigationResponse.rawResp r <> None ->
  exists resp data doc,
    NewRequest io (NavigationRequest.Method request) (NavigationRequest.URL request) = None
    /\ FromRequest io = None
    /\ Do io = inl resp
    /\ http.Response.StatusCode resp <> 404
    /\ ReadAll io (types.Options.BodyReadSize
                     (types.CrawlerOptions.Options (Crawler.options c))) = (data, None)
    /\ NewDocumentFromReader io data = inl doc
    /\ r = {| NavigationResponse.rawResp := Some resp;
              NavigationResponse.rawDepth := wrapInt (NavigationRequest.Depth request + 1);
              NavigationResponse.rawOptions := Crawler.options c;
              NavigationResponse.rawReader := Some doc;
              NavigationResponse.rawBody := Some data |}.
Proof.
  unfold makeRequest.
  destruct (NewRequest io _ _) eqn:Hnew; [discriminate|].
  destruct (FromRequest io) eqn:Hfrom; [discriminate|].
  destruct (Do io) as [resp|err] eqn:Hdo; [|discriminate].
  destruct (http.Response.StatusCode resp =? 404) eqn:Hstatus.
  - intros [= <-] Hresp. now elim Hresp.
  - destruct (ReadAll io _) as [data [err|]] eqn:Hread; [discriminate|].
    destruct (NewDocumentFromReader io data) as [doc|err] eqn:Hdoc; [|discriminate].
    intros [= <-] _. exists resp, data, doc.
    apply Z.eqb_neq in Hstatus. repeat split; auto.
Qed.

(** X10. A response that comes with an error never carries a document, and
    it carries [Resp] and [Body] only when the failure was that of making
    the document; on every other failure it is the bare struct of depth and
    options. *)
Theorem makeRequest_error_has_no_document c io request r err :
  makeRequest c io request = (r, Some err) ->
  NavigationResponse.rawReader r = None
  /\ (r = bareResponse c request
      \/ exists resp data cause,
           NewDocumentFromReader io data = inr cause
           /\ err = "could not make document from reader: " +:+ cause
           /\ NavigationResponse.rawResp r = Some resp
           /\ NavigationResponse.rawBody r = Some data).
Proof.
  unfold makeRequest. fold (bareResponse c request).
  destruct (NewRequest io _ _); [intros [= <- _]; split; [reflexivity | now left]|].
  destruct (FromRequest io); [intros [= <- _]; split; [reflexivity | now left]|].
  destruct (Do io) as [resp|e]; [|intros [= <- _]; split; [reflexivity | now left]].
  destruct (http.Response.StatusCode resp =? 404); [discriminate|].
  destruct (ReadAll io _) as [data [e|]]; [intros [= <- _]; split; [reflexivity | now left]|].
  destruct (NewDocumentFromReader io data) as [doc|cause] eqn:Hdoc; [discriminate|].
  intros [= <- <-]. split; [reflexivity|]. right. exists resp, data, cause. auto.
Qed.

(** X11. A 404 answer is not an error and leaves nothing to parse: the
    result is the bare struct of depth and options with a nil error, for
    every transport that answers 404, whatever it would give for the body
    and the document. *)
Theorem makeRequest_not_found c io request resp :
  NewRequest io (NavigationRequest.Method request) (NavigationRequest.URL request) = None ->
  FromRequest io = None ->
  Do io = inl resp ->
  http.Response.StatusCode resp = 404 ->
  makeRequest c io request = (bareResponse c request, None)
  /\ NavigationResponse.populated (makeRequest c io request).1 = None.
Proof.
  intros Hnew Hfrom Hdo Hstatus.
  assert (Hrun : makeRequest c io request = (bareResponse c request, None)).
  { unfold makeRequest. now rewrite Hnew, Hfrom, Hdo, Hstatus. }
  split; [exact Hrun|]. now rewrite Hrun.
Qed.

(** X12. On every return path the response has the crawler's options and a
    depth that is a 64-bit integer: the request's depth plus one, except at
    the largest depth, where the sum wraps around to the smallest. *)
Theorem makeRequest_depth_wraps c io request :
  - 2 ^ 63 <= NavigationRequest.Depth request < 2 ^ 63 ->
  let r := (makeRequest c io request).1 in
  NavigationResponse.rawOptions r = Crawler.options c
  /\ - 2 ^ 63 <= NavigationResponse.rawDepth r < 2 ^ 63
  /\ (NavigationRequest.Depth request < 2 ^ 63 - 1 ->
      NavigationResponse.rawDepth r = NavigationRequest.Depth request + 1)
  /\ (NavigationRequest.Depth request = 2 ^ 63 - 1 ->
      NavigationResponse.rawDepth r = - 2 ^ 63).
Proof.
  intros Hrange r.
  assert (Hdepth : NavigationResponse.rawDepth r
                   = wrapInt (NavigationRequest.Depth request + 1)).
  { subst r. unfold makeRequest.
    destruct (NewRequest io _ _); [reflexivity|].
    destruct (FromRequest io); [reflexivity|].
    destruct (Do io) as [resp|err]; [|reflexivity].
    destruct (http.Response.StatusCode resp =? 404); [reflexivity|].
    destruct (ReadAll io _) as [data [err|]]; [reflexivity|].
    destruct (NewDocumentFromReader io data); reflexivity. }
  assert (Hoptions : NavigationResponse.rawOptions r = Crawler.options c).
  { subst r. unfold makeRequest.
    destruct (NewRequest io _ _); [reflexivity|].
    destruct (FromRequest io); [reflexivity|].
    destruct (Do io) as [resp|err]; [|reflexivity].
    destruct (http.Response.StatusCode resp =? 404); [reflexivity|].
    destruct (ReadAll io _) as [data [err|]]; [reflexivity|].
    destruct (NewDocumentFromReader io data); reflexivity. }
  rewrite Hdepth. unfold wrapInt.
  split; [exact Hoptions|]. split; [|split].
  - pose proof (Z.mod_pos_bound (NavigationRequest.Depth request + 1 + 2 ^ 63) (2 ^ 64)).
    lia.
  - intros Hlt. rewrite Z.mod_small; lia.
  - intros ->. reflexivity.
Qed.

End MakeRequest.

Lemma makeRequest_success_is_complete_witness :
  exists resp data doc,
    NewRequest exTransport (NavigationRequest.Method searchRequest)
               (NavigationRequest.URL searchRequest) = None
    /\ FromRequest exTransport = None
    /\ Do exTransport = inl resp
    /\ http.Response.StatusCode resp <> 404
    /\ ReadAll exTransport (types.Options.BodyReadSize
                              (types.CrawlerOptions.Options (Crawler.options exCrawler)))
       = (data, None)
    /\ NewDocumentFromReader exTransport data = inl doc
    /\ (makeRequest exCrawler exTransport searchRequest).1
       = {| NavigationResponse.rawResp := Some resp;
            NavigationResponse.rawDepth := wrapInt (NavigationRequest.Depth searchRequest + 1);
            NavigationResponse.rawOptions := Crawler.options exCrawler;
            NavigationResponse.rawReader := Some doc;
            NavigationResponse.rawBody := Some data |}.
Proof.
  apply (makeRequest_success_is_complete exCrawler exTransport searchRequest
           (makeRequest exCrawler exTransport searchRequest).1).
  - reflexivity.
  - vm_compute. discriminate.
Defined.

Lemma makeRequest_error_has_no_document_witness :
  NavigationResponse.rawReader (makeRequest exCrawler badDocumentTransport searchRequest).1 = None
  /\ ((makeRequest exCrawler badDocumentTransport searchRequest).1
      = bareResponse exCrawler searchRequest
      \/ exists resp data cause,
           NewDocumentFromReader badDocumentTransport data = inr cause
           /\ "could not make document from reader: unexpected EOF"
              = "could not make document from reader: " +:+ cause
           /\ NavigationResponse.rawResp
                (makeRequest exCrawler badDocumentTransport searchRequest).1 = Some resp
           /\ NavigationResponse.rawBody
                (makeRequest exCrawler badDocumentTransport searchRequest).1 = Some data).
Proof.
  apply (makeRequest_error_has_no_document exCrawler badDocumentTransport searchRequest
           (makeRequest exCrawler badDocumentTransport searchRequest).1
           "could not make document from reader: unexpected EOF").
  reflexivity.
Defined.

Lemma makeRequest_not_found_witness :
  makeRequest exCrawler notFoundTransport searchRequest
  = (bareResponse exCrawler searchRequest, None)
  /\ NavigationResponse.populated (makeRequest exCrawler notFoundTransport searchRequest).1
     = None.
Proof.
  eapply (makeRequest_not_found exCrawler notFoundTransport searchRequest);
    reflexivity.
Defined.

Lemma makeRequest_depth_wraps_witness :
  let r := (makeRequest exCrawler exTransport deepestRequest).1 in
  NavigationResponse.rawOptions r = Crawler.options exCrawler
  /\ - 2 ^ 63 <= NavigationResponse.rawDepth r < 2 ^ 63
  /\ (NavigationRequest.Depth deepestRequest < 2 ^ 63 - 1 ->
      NavigationResponse.rawDepth r = NavigationRequest.Depth deepestRequest + 1)
  /\ (NavigationRequest.Depth deepestRequest = 2 ^ 63 - 1 ->
      NavigationResponse.rawDepth r = - 2 ^ 63).
Proof.
  apply (makeRequest_depth_wraps exCrawler exTransport deepestRequest).
  simpl. lia.
Defined.

(* ------------------------------------------------------------------ *)
(** ** Further properties: headers, empty pages, JavaScript files, queries *)

Section HeadersAndPages.
Context `{Navigation} `{Utils} `{Runtime}.

Implicit Types (resp : NavigationResponse.t).

Lemma Get_missing (h : http.Header) key : h !! key = None -> http.Get h key = EmptyString.
Proof. unfold http.Get. now intros ->. Qed.

Lemma Get_first (h : http.Header) key v vs : h !! key = Some (v :: vs) -> http.Get h key = v.
Proof. unfold http.Get. now intros ->. Qed.

(** X13. The [Location] and [Content-Location] parsers follow the first
    value of their header only: when it is not empty they emit the one
    request built from it, whatever values follow, and when it is empty they
    emit nothing, whatever values follow. *)
Theorem header_parsers_read_first_value resp v vs :
  (Header resp !! "Location" = Some (v :: vs) ->
   headerLocationParser resp
   = if isEmpty v then [] else [NewNavigationRequestURL v "location" resp])
  /\ (Header resp !! "Content-Location" = Some (v :: vs) ->
      headerContentLocationParser resp
      = if isEmpty v then [] else [NewNavigationRequestURL v "content-location" resp]).
Proof.
  split; intros Hh.
  - unfold headerLocationParser. now rewrite (Get_first _ _ _ _ Hh).
  - unfold headerContentLocationParser. now rewrite (Get_first _ _ _ _ Hh).
Qed.

Lemma MatchAll_tag (s : goquery.Selector) (n x : html.Node) :
  In x (goquery.MatchAll s n) -> In (goquery.selTag s) (tagsOf n).
Proof.
  revert x. induction n as [tag attrs cs IH| |] using Node_forall_ind; intros x Hin.
  - simpl in Hin. apply in_app_or in Hin as [Hin|Hin].
    + destruct (String.eqb tag (goquery.selTag s)) eqn:Htag; [|contradiction].
      apply String.eqb_eq in Htag as ->. now left.
    + apply in_flat_map in Hin as (c & Hc & Hin).
      rewrite List.Forall_forall in IH.
      right. apply in_flat_map. exists c. split; [exact Hc|]. exact (IH c Hc x Hin).
  - destruct Hin.
  - destruct Hin.
Qed.

(** Nothing is selected by a selector whose tag the document does not
    have. *)
Lemma Find_absent_tag (root : html.Node) (s : goquery.Selector) :
  hasParserTag root = false ->
  In (goquery.selTag s) parserTags ->
  goquery.Find [root] s = [].
Proof.
  intros Hnone Htag.
  destruct (goquery.Find [root] s) as [|x sel] eqn:Hfind; [reflexivity|].
  exfalso.
  assert (Hx : In x (goquery.Find [root] s)) by (rewrite Hfind; now left).
  unfold goquery.Find in Hx. simpl in Hx. rewrite app_nil_r in Hx.
  apply in_flat_map in Hx as (c & Hc & Hx). apply MatchAll_tag in Hx.
  assert (Hroot : In (goquery.selTag s) (tagsOf root)).
  { destruct root as [tag attrs cs| |]; simpl in Hc; try contradiction.
    right. apply in_flat_map. eauto. }
  unfold hasParserTag in Hnone.
  assert (Hsome : existsb (fun tag => existsb (String.eqb tag) parserTags) (tagsOf root) = true).
  { apply existsb_exists. exists (goquery.selTag s). split; [exact Hroot|].
    apply existsb_exists. exists (goquery.selTag s). split; [exact Htag|].
    apply String.eqb_refl. }
  congruence.
Qed.

(** X14. A response without any of the four headers, whose document has no
    element of a tag the body parsers select, and that is parsed with JS
    scraping off or is not a JavaScript file, yields no request at all:
    nothing in the pipeline invents a candidate on a page without links. *)
Theorem page_without_links_yields_nothing resp :
  Header resp !! "Content-Location" = None ->
  Header resp !! "Link" = None ->
  Header resp !! "Location" = None ->
  Header resp !! "Refresh" = None ->
  hasParserTag (NavigationResponse.Reader resp) = false ->
  ScrapeJSResponses resp = false \/ isJSFile resp = false ->
  parseResponse resp = [].
Proof.
  intros Hcl Hlink Hloc Hrefresh Hdoc Hjs.
  rewrite parseResponse_blocks.
  unfold headerContentLocationParser, headerLinkParser, headerLocationParser,
    headerRefreshParser.
  rewrite (Get_missing _ _ Hcl), (Get_missing _ _ Hlink), (Get_missing _ _ Hloc),
    (Get_missing _ _ Hrefresh).
  unfold bodyATagParser, bodyEmbedTagParser, bodyFrameTagParser, bodyIframeTagParser,
    bodyInputSrcTagParser, bodyIsindexActionTagParser, bodyScriptSrcTagParser,
    bodyFormTagParser, bodyMetaContentTagParser, scriptContentRegexParser, ReaderFind.
  rewrite !(Find_absent_tag _ _ Hdoc) by (unfold parserTags; simpl; tauto).
  simpl.
  unfold scriptJSFileRegexParser.
  destruct Hjs as [-> | ->]; [reflexivity|].
  now destruct (negb (ScrapeJSResponses resp)).
Qed.

End HeadersAndPages.

Lemma header_parsers_read_first_value_witness :
  headerLocationParser redirectResponse
  = (if isEmpty "http://example.com/new" then []
     else [NewNavigationRequestURL "http://example.com/new" "location" redirectResponse]).
Proof.
  apply (proj1 (header_parsers_read_first_value redirectResponse "http://example.com/new"
                  ["http://example.com/other"])).
  reflexivity.
Defined.

(** Two [Location] values give one request; the empty first value of
    [Content-Location] hides the second. *)
Example redirectResponse_requests :
  map NavigationRequest.URL (parseResponse redirectResponse) = ["http://example.com/new"].
Proof. vm_compute. reflexivity. Qed.

Lemma page_without_links_yields_nothing_witness : parseResponse textPage = [].
Proof.
  apply (page_without_links_yields_nothing textPage);
    [reflexivity | reflexivity | reflexivity | reflexivity | reflexivity | left; reflexivity].
Defined.

Section JSFileCondition.

(** X15. The js-file parser takes a response for a JavaScript file exactly
    when the path of the request URL ends in the bytes [.js] or the first
    [Content-Type] value has [/javascript] somewhere in it; the comparison is
    byte for byte, so a path ending in [.JS] does not count. *)
Theorem js_file_condition (resp : NavigationResponse.t) :
  let path := url.Path (http.Request.URL (http.Response.Request (NavigationResponse.Resp resp))) in
  let contentType := http.Get (Header resp) "Content-Type" in
  isJSFile resp = true <->
  (exists stem, path = stem +:+ ".js")
  \/ (exists before after, contentType = before +:+ "/javascript" +:+ after).
Proof.
  intros path contentType. unfold isJSFile. fold path. fold contentType.
  now rewrite orb_true_iff, HasSuffix_app, Contains_app.
Qed.

End JSFileCondition.

(** A path in capitals is not a JavaScript file; a content type with a
    parameter is. *)
Example js_file_by_bytes :
  isJSFile (exResponse "/static/APP.JS" ∅ 0 true (exDocument []) EmptyString) = false
  /\ isJSFile (exResponse "/bundle"
                 {[ "Content-Type" := ["text/javascript; charset=utf-8"] ]}
                 0 true (exDocument []) EmptyString) = true.
Proof. split; vm_compute; reflexivity. Qed.

Section QueryBytes.
Context `{Navigation} `{Utils} `{Runtime}.

Lemma allBytes_app p (a b : string) : allBytes p (a +:+ b) = allBytes p a && allBytes p b.
Proof.
  induction a as [|c a IH]; [reflexivity|].
  rewrite string_app_cons. simpl. now rewrite IH, andb_assoc.
Qed.

Lemma QueryEscape_bytes (s : string) : allBytes queryByte (url.QueryEscape s) = true.
Proof.
  induction s as [|c s IH]; [reflexivity|].
  destruct c as [[] [] [] [] [] [] [] []]; exact IH.
Qed.

Lemma encodeKey_bytes keyEscaped vs buf :
  allBytes queryByte keyEscaped = true ->
  allBytes queryByte buf = true ->
  allBytes queryByte (url.encodeKey keyEscaped vs buf) = true.
Proof.
  intros Hkey. unfold url.encodeKey. revert buf.
  induction vs as [|v vs IH]; intros buf Hbuf; [exact Hbuf|].
  simpl. apply IH.
  rewrite !allBytes_app, Hkey, QueryEscape_bytes.
  destruct (isEmpty buf); [now rewrite Hbuf|].
  now rewrite allBytes_app, Hbuf.
Qed.

Lemma Encode_bytes (v : url.Values) : allBytes queryByte (url.Encode v) = true.
Proof.
  unfold url.Encode.
  generalize (url.sortKeys (map fst (map_to_list v))). intros keys.
  assert (Hall : forall buf, allBytes queryByte buf = true ->
                 allBytes queryByte
                   (foldl (fun buf k => url.encodeKey (url.QueryEscape k) (default [] (v !! k)) buf)
                          buf keys) = true).
  { induction keys as [|k keys IH]; intros buf Hbuf; [exact Hbuf|].
    simpl. apply IH. apply encodeKey_bytes; [apply QueryEscape_bytes | exact Hbuf]. }
  now apply Hall.
Qed.

Lemma allBytes_ContainsByte p (s : string) (c : ascii) :
  allBytes p s = true -> p c = false -> strings.ContainsByte s c = false.
Proof.
  intros Hall Hc. induction s as [|d s IH]; [reflexivity|].
  simpl in Hall. apply andb_true_iff in Hall as [Hd Hall].
  simpl. rewrite (IH Hall), orb_false_r.
  destruct (Ascii.eqb c d) eqn:Hcd; [|reflexivity].
  apply Ascii.eqb_eq in Hcd as ->. congruence.
Qed.

(** Control bytes, the space, DEL and the bytes above ASCII are not query
    bytes. *)
Lemma queryByte_outside (c : ascii) :
  (N_of_ascii c < 33 \/ 127 <= N_of_ascii c)%N -> queryByte c = false.
Proof.
  destruct c as [[] [] [] [] [] [] [] []]; intros Hc; try reflexivity;
    exfalso; vm_compute in Hc;
    (destruct Hc as [Hc|Hc]; [discriminate Hc | apply Hc; reflexivity]).
Qed.

(** X16. The query string the form parser appends for a [GET] form holds
    only ASCII letters and digits, [-] [_] [.] [~], [+], [%], [&] and [=]:
    whatever the names and values of the fields, no byte outside that set
    gets into the URL through them, in particular no space, [#], [?], [/],
    double quote, control byte or byte above ASCII; and for a form that is
    not multipart the body is that same string. *)
Theorem form_query_bytes (resp : NavigationResponse.t) i (item : goquery.Selection) href :
  formMethod item = "GET" ->
  goquery.Attr item "action" = Some href ->
  AbsoluteURL resp href <> EmptyString ->
  exists req query,
    formRequest resp i item = [req]
    /\ NavigationRequest.URL req = AbsoluteURL resp href +:+ "?" +:+ query
    /\ (forall c, strings.ContainsByte queryBytes c = false ->
                  strings.ContainsByte query c = false)
    /\ strings.ContainsByte query " " = false
    /\ strings.ContainsByte query "#" = false
    /\ strings.ContainsByte query "?" = false
    /\ strings.ContainsByte query "/" = false
    /\ strings.ContainsByte query DQUOTE = false
    /\ (forall c, (N_of_ascii c < 33 \/ 127 <= N_of_ascii c)%N ->
                  strings.ContainsByte query c = false)
    /\ (isMultipartForm item = false -> NavigationRequest.Body req = query).
Proof.
  intros Hget Haction Hresolves.
  eexists. exists (url.Encode (queryValuesWriter (filledWriters i item))).
  split; [apply (formRequest_emits _ _ _ _ Haction Hresolves)|].
  rewrite Hget. cbn [NavigationRequest.URL NavigationRequest.Body String.eqb Ascii.eqb Bool.eqb].
  pose proof (Encode_bytes (queryValuesWriter (filledWriters i item))) as Hbytes.
  assert (Hout : forall c, strings.ContainsByte queryBytes c = false ->
                 strings.ContainsByte (url.Encode (queryValuesWriter (filledWriters i item))) c
                 = false).
  { intros c Hc. exact (allBytes_ContainsByte queryByte _ c Hbytes Hc). }
  split; [reflexivity|]. split; [exact Hout|].
  do 5 (split; [apply Hout; reflexivity|]).
  split; [intros c Hc; apply Hout; exact (queryByte_outside c Hc)|].
  intros Hmp. now apply filledWriters_urlencoded.
Qed.

End QueryBytes.

Lemma form_query_bytes_witness :
  exists req query,
    formRequest (exPage 0 [escapingForm]) 0 [escapingForm] = [req]
    /\ NavigationRequest.URL req
       = AbsoluteURL (exPage 0 [escapingForm]) "http://example.com/search" +:+ "?" +:+ query
    /\ (forall c, strings.ContainsByte queryBytes c = false ->
                  strings.ContainsByte query c = false)
    /\ strings.ContainsByte query " " = false
    /\ strings.ContainsByte query "#" = false
    /\ strings.ContainsByte query "?" = false
    /\ strings.ContainsByte query "/" = false
    /\ strings.ContainsByte query DQUOTE = false
    /\ (forall c, (N_of_ascii c < 33 \/ 127 <= N_of_ascii c)%N ->
                  strings.ContainsByte query c = false)
    /\ (isMultipartForm [escapingForm] = false -> NavigationRequest.Body req = query).
Proof.
  apply (form_query_bytes (exPage 0 [escapingForm]) 0%nat [escapingForm]
                          "http://example.com/search");
    [reflexivity | reflexivity | vm_compute; discriminate].
Defined.

Example escapingForm_request :
  map NavigationRequest.URL (bodyFormTagParser (exPage 0 [escapingForm]))
  = ["http://example.com/search?q=what+is+%231%3F+a%26b"].
Proof. vm_compute. reflexivity. Qed.

Section FormMethod.
Context `{Navigation} `{Utils} `{Runtime}.

Lemma upperByte_idempotent (c : ascii) :
  strings.upperByte (strings.upperByte c) = strings.upperByte c.
Proof. destruct c as [[] [] [] [] [] [] [] []]; reflexivity. Qed.

Lemma ToUpperASCII_idempotent (s : string) :
  strings.ToUpperASCII (strings.ToUpperASCII s) = strings.ToUpperASCII s.
Proof.
  induction s as [|c s IH]; [reflexivity|].
  simpl. now rewrite upperByte_idempotent, IH.
Qed.

(** X17. For a form whose [method] attribute is ASCII, the method of the
    emitted request is never empty and is in upper case (upper-casing it
    again changes nothing); it is the attribute upper-cased, so [post],
    [Post] and [POST] give the same method, and it is [GET] when the
    attribute is missing or empty. *)
Theorem form_method_upper_case (resp : NavigationResponse.t) i (item : goquery.Selection) req :
  strings.isASCII (default EmptyString (goquery.Attr item "method")) = true ->
  In req (formRequest resp i item) ->
  NavigationRequest.Method req <> EmptyString
  /\ strings.ToUpperASCII (NavigationRequest.Method req) = NavigationRequest.Method req
  /\ (default EmptyString (goquery.Attr item "method") = EmptyString ->
      NavigationRequest.Method req = "GET")
  /\ (default EmptyString (goquery.Attr item "method") <> EmptyString ->
      NavigationRequest.Method req
      = strings.ToUpperASCII (default EmptyString (goquery.Attr item "method"))).
Proof.
  intros Hascii Hin.
  assert (Hmethod : NavigationRequest.Method req = formMethod item).
  { unfold formRequest in Hin.
    destruct (goquery.Attr item "action") as [href|]; [|contradiction].
    destruct (isEmpty (AbsoluteURL resp href)); [contradiction|].
    destruct Hin as [<-|[]].
    destruct (String.eqb (formMethod item) "GET"); [reflexivity|].
    destruct (String.eqb (formMethod item) "POST"); reflexivity. }
  rewrite Hmethod. unfold formMethod.
  destruct (default EmptyString (goquery.Attr item "method")) as [|c m] eqn:Hattr.
  - simpl isEmpty. cbv iota. rewrite ToUpper_ascii by reflexivity.
    split; [discriminate|]. split; [reflexivity|]. split; [reflexivity|].
    intros Hne. now elim Hne.
  - simpl isEmpty. cbv iota. rewrite ToUpper_ascii by exact Hascii.
    split; [discriminate|]. split; [apply ToUpperASCII_idempotent|].
    split; [discriminate | reflexivity].
Qed.

(** X18. With JS scraping off, the pipeline emits exactly what the header
    parsers and the tag parsers emit, in their order: switching the JS-regex
    parsers off takes nothing from and adds nothing to the other
    candidates. *)
Theorem pipeline_without_js (resp : NavigationResponse.t) :
  ScrapeJSResponses resp = false ->
  parseResponse resp = runParsers (take 13 responseParsers) resp.
Proof.
  intros Hoff. rewrite parseResponse_blocks.
  unfold responseParsers. cbn [take]. rewrite !runParsers_cons.
  assert (Hcontent : scriptContentRegexParser resp = []).
  { unfold scriptContentRegexParser, goquery.Each.
    apply EachFrom_silent. intros i item. now rewrite Hoff. }
  assert (Hfile : scriptJSFileRegexParser resp = []).
  { unfold scriptJSFileRegexParser. now rewrite Hoff. }
  rewrite Hcontent, Hfile. reflexivity.
Qed.

End FormMethod.

Lemma form_method_upper_case_witness :
  let req :=
    {| NavigationRequest.Method := "POST";
       NavigationRequest.URL := "http://example.com/search";
       NavigationRequest.Body := "q=crawler";
       NavigationRequest.Depth := 0;
       NavigationRequest.Headers := {[ "Content-Type" := "application/x-www-form-urlencoded" ]};
       NavigationRequest.Source := "form" |} in
  NavigationRequest.Method req <> EmptyString
  /\ strings.ToUpperASCII (NavigationRequest.Method req) = NavigationRequest.Method req
  /\ (default EmptyString (goquery.Attr [mixedCaseForm] "method") = EmptyString ->
      NavigationRequest.Method req = "GET")
  /\ (default EmptyString (goquery.Attr [mixedCaseForm] "method") <> EmptyString ->
      NavigationRequest.Method req
      = strings.ToUpperASCII (default EmptyString (goquery.Attr [mixedCaseForm] "method"))).
Proof.
  apply (form_method_upper_case (exPage 0 [mixedCaseForm]) 0%nat [mixedCaseForm]).
  - reflexivity.
  - vm_compute. left. reflexivity.
Defined.

(** An empty [method] attribute is the same as none. *)
Example emptyMethodForm_request :
  bodyFormTagParser (exPage 3 [emptyMethodForm]) = bodyFormTagParser (exPage 3 [searchForm]).
Proof. vm_compute. reflexivity. Qed.

Lemma pipeline_without_js_witness :
  parseResponse (jsResponse false) = runParsers (take 13 responseParsers) (jsResponse false).
Proof. apply (pipeline_without_js (jsResponse false)). reflexivity. Defined.
